(** * dieopt: dies-per-wafer counting on a circular wafer

    A shallow embedding of [backup.py] (the counting core and the
    three-offset optimiser) and of [dieopt/api.py] (the coercion and
    presentation layer; its [optimise_three_fixed_offsets] is the one of
    [backup.py]).

    The Python code computes on binary64 floats.  The embedding is written
    once, over an interface [Numeric] of the arithmetic the source uses, and
    read in two number systems:

    - [binary64]: Rocq's primitive floats, the arithmetic Python runs.  Every
      definition evaluates there, so concrete runs are checked by computation.
    - [exact]: the real numbers, the arithmetic the geometric reasoning of the
      specification is carried out in (no rounding, no infinities, no NaN).

    Properties that only depend on the structure of the code are proved for
    every [Numeric] instance, hence for the floats; geometric properties are
    proved in [exact], and the inputs on which a statement of the
    specification fails are run in both.

    Read of the source: the fields of [Wafer] and [Die] and the offsets are
    Python floats, as annotated; the row-wise [einsum] is [x*x + y*y] with
    each operation rounded; [math.hypot] is correctly rounded; index arrays
    are small enough for int64. *)

From Stdlib Require Import ZArith List Bool String Lia FinFun.
From Stdlib Require Import Reals Lra Psatz.
From Stdlib Require Import Floats.
Import ListNotations.

#[local] Set Warnings "-inexact-float".

(** ** Exceptions *)

(** The messages of [DieOptError] raised by [api.py]. *)
Inductive DieOptMsg : Type :=
| ProvideWafer                 (* "Provide wafer or wafer_diameter." *)
| ProvideDie                   (* "Provide die or width & height." *)
| DrawNeedsAx                  (* "draw=True requires a Matplotlib Axes via ax=..." *)
| UnknownMode (mode : string). (* f"Unknown mode: {mode!r}" *)

Inductive PyError : Type :=
| ZeroDivisionError            (* float division by zero *)
| ValueError                   (* math.ceil of NaN *)
| OverflowError                (* math.ceil of an infinity *)
| KeyError (key : string)
| DieOptError (msg : DieOptMsg).

Inductive result (A : Type) : Type :=
| Ok (a : A)
| Raise (e : PyError).
Arguments Ok {A} a.
Arguments Raise {A} e.

Definition bind {A B : Type} (m : result A) (k : A -> result B) : result B :=
  match m with
  | Ok a => k a
  | Raise e => Raise e
  end.

Notation "x <- m ;; k" := (bind m (fun x => k))
  (at level 61, m at next level, right associativity).
Notation "' pat <- m ;; k" := (bind m (fun x => match x with pat => k end))
  (at level 61, pat pattern, m at next level, right associativity).

(** The exceptions of the two float operations that can raise. *)
Definition arith_error (e : PyError) : Prop :=
  e = ZeroDivisionError \/ e = ValueError \/ e = OverflowError.

(** The configuration errors of the coercion layer. *)
Definition config_error (e : PyError) : Prop :=
  e = DieOptError ProvideWafer \/ e = DieOptError ProvideDie.

Definition raises_config_error {A : Type} (m : result A) : Prop :=
  exists e, m = Raise e /\ config_error e.

Definition is_some {A : Type} (o : option A) : bool :=
  match o with Some _ => true | None => false end.

(** ** The arithmetic of the source *)

Class Numeric (F : Type) : Type := {
  lit_0   : F;                       (* 0.0 *)
  lit_05  : F;                       (* 0.5 *)
  lit_1   : F;                       (* the int 1 in [1 + tol], as a float *)
  lit_tol : F;                       (* 1e-9 *)
  fadd : F -> F -> F;
  fsub : F -> F -> F;
  fmul : F -> F -> F;
  fneg : F -> F;
  fdiv : F -> F -> F;                (* the quotient, for a non-zero divisor *)
  fle : F -> F -> bool;              (* <= *)
  fgt : F -> F -> bool;              (* > , as used by the builtin [max] *)
  truthy : F -> bool;                (* bool(x): x != 0 *)
  is_nan : F -> bool;
  hypot : F -> F -> F;               (* math.hypot *)
  of_int : Z -> F;                   (* int64 -> float64 *)
  fceil : F -> option Z              (* the ceiling of a finite number *)
}.

(** Python's [x / y] on floats raises on a zero divisor. *)
Definition py_div {F : Type} `{Numeric F} (x y : F) : result F :=
  if truthy y then Ok (fdiv x y) else Raise ZeroDivisionError.

(** [int(math.ceil(x))] raises [ValueError] on NaN and [OverflowError] on an
    infinity. *)
Definition py_ceil {F : Type} `{Numeric F} (x : F) : result Z :=
  match fceil x with
  | Some z => Ok z
  | None => if is_nan x then Raise ValueError else Raise OverflowError
  end.

(** *** binary64 *)

Module Binary64.

Definition gt (x y : float) : bool := PrimFloat.ltb y x.

(** [0.0] and [-0.0] are falsy, NaN is truthy. *)
Definition truthy (x : float) : bool := negb (PrimFloat.is_zero x).

(** The integer part upwards of a finite float, computed on its exact
    value [(-1)^s * m * 2^e]. *)
Definition ceil (x : float) : option Z :=
  match Prim2SF x with
  | S754_nan => None
  | S754_infinity _ => None
  | S754_zero _ => Some 0%Z
  | S754_finite s m e =>
      let v := if s then Z.neg m else Z.pos m in
      match e with
      | Zneg p => Some (- ((- v) / Z.pow_pos 2 p))%Z
      | _ => Some (v * 2 ^ e)%Z
      end
  end.

(** Conversion of an integer, rounded to nearest even. *)
Definition of_int (z : Z) : float :=
  SF2Prim (binary_normalize prec emax z 0 false).

(** The exact sum of two squares, as [m * 2^e]. *)
Definition sum_squares (m1 : positive) (e1 : Z) (m2 : positive) (e2 : Z)
  : positive * Z :=
  let e := Z.min (2 * e1) (2 * e2) in
  let a := (Z.pos (m1 * m1) * 2 ^ (2 * e1 - e))%Z in
  let b := (Z.pos (m2 * m2) * 2 ^ (2 * e2 - e))%Z in
  (Z.to_pos (a + b), e).

(** [math.hypot]: the Euclidean norm, here correctly rounded (the C
    library and CPython promise a result within one unit in the last
    place of it). *)
Definition hypot (x y : float) : float :=
  match Prim2SF x, Prim2SF y with
  | S754_infinity _, _ | _, S754_infinity _ => infinity
  | S754_nan, _ | _, S754_nan => nan
  | S754_zero _, _ => PrimFloat.abs y
  | _, S754_zero _ => PrimFloat.abs x
  | S754_finite _ m1 e1, S754_finite _ m2 e2 =>
      let '(m, e) := sum_squares m1 e1 m2 e2 in
      SF2Prim (SFsqrt prec emax (S754_finite false m e))
  end.

End Binary64.

#[export] Instance binary64 : Numeric float := {
  lit_0 := 0%float;
  lit_05 := 0.5%float;
  lit_1 := 1%float;
  lit_tol := 1e-9%float;
  fadd := PrimFloat.add;
  fsub := PrimFloat.sub;
  fmul := PrimFloat.mul;
  fneg := PrimFloat.opp;
  fdiv := PrimFloat.div;
  fle := PrimFloat.leb;
  fgt := Binary64.gt;
  truthy := Binary64.truthy;
  is_nan := PrimFloat.is_nan;
  hypot := Binary64.hypot;
  of_int := Binary64.of_int;
  fceil := Binary64.ceil
}.

(** *** exact arithmetic *)

Module Exact.

Definition le (x y : R) : bool := if Rle_dec x y then true else false.

Definition gt (x y : R) : bool := if Rlt_dec y x then true else false.

Definition truthy (x : R) : bool := if Req_dec_T x 0%R then false else true.

Definition hypot (x y : R) : R := R_sqrt.sqrt (x * x + y * y).

(** The least integer not below [x]: [up] is the least integer above. *)
Definition ceil (x : R) : option Z := Some (1 - up (- x))%Z.

End Exact.

#[export] Instance exact : Numeric R := {
  lit_0 := 0%R;
  lit_05 := (1 / 2)%R;
  lit_1 := 1%R;
  lit_tol := (1 / 1000000000)%R;
  fadd := Rplus;
  fsub := Rminus;
  fmul := Rmult;
  fneg := Ropp;
  fdiv := Rdiv;
  fle := Exact.le;
  fgt := Exact.gt;
  truthy := Exact.truthy;
  is_nan := fun _ => false;
  hypot := Exact.hypot;
  of_int := IZR;
  fceil := Exact.ceil
}.

(** ** backup.py: data model *)

Section Core.

Context {F : Type} `{Numeric F}.

Record Wafer : Type := mkWafer {
  diameter : F;
  edge_exclusion : F
}.

Record Die : Type := mkDie {
  width : F;
  height : F;
  scribe : F
}.

Definition point : Type := (F * F)%type.

Record PlacementResult : Type := mkPlacementResult {
  dpw : Z;
  angle_deg : F;
  offset : F * F;
  positions : list point
}.

(** *** geometry helpers *)

Definition _usable_radius (w : Wafer) : F :=
  fsub (fmul lit_05 (diameter w)) (edge_exclusion w).

Definition _corners_local (w_die h_die : F) : list point :=
  let hw := fmul lit_05 w_die in
  let hh := fmul lit_05 h_die in
  [ (fneg hw, fneg hh); (hw, fneg hh); (hw, hh); (fneg hw, hh) ].

(** [np.einsum('ij,ij->i', points, points)] for one row. *)
Definition sq_norm (p : point) : F :=
  fadd (fmul (fst p) (fst p)) (fmul (snd p) (snd p)).

(** One entry of the mask [_within_circle(points, R)], [tol = 1e-9]. *)
Definition _within_circle (R : F) (p : point) : bool :=
  fle (sq_norm p) (fmul (fmul R R) (fadd lit_1 lit_tol)).

(** *** core counting *)

(** The builtin [max] of two arguments keeps the first unless the second
    is greater. *)
Definition py_max2 (a b : F) : F := if fgt b a then b else a.

(** [np.arange(lo, hi)] on integers. *)
Definition arange (lo hi : Z) : list Z :=
  map (fun k => (lo + Z.of_nat k)%Z) (seq 0 (Z.to_nat (hi - lo))).

Definition _grid_bounds (R pitch_x pitch_y : F) : result (list Z * list Z) :=
  let max_half := fadd R (py_max2 pitch_x pitch_y) in
  qx <- py_div max_half pitch_x ;;
  ix <- py_ceil qx ;;
  qy <- py_div max_half pitch_y ;;
  iy <- py_ceil qy ;;
  Ok (arange (- ix) (ix + 1), arange (- iy) (iy + 1)).

(** [np.meshgrid(grid_x, grid_y, indexing='xy')], both outputs ravelled in
    row-major order and stacked as columns: [grid_y] is the outer loop. *)
Definition meshgrid_xy {A B : Type} (gx : list A) (gy : list B) : list (A * B) :=
  flat_map (fun y => map (fun x => (x, y)) gx) gy.

Definition padd (p q : point) : point :=
  (fadd (fst p) (fst q), fadd (snd p) (snd q)).

(** One row of [np.all(_within_circle(corners_all, R).reshape(-1,4), axis=1)]. *)
Definition all_corners_within (R : F) (corners0 : list point) (c : point) : bool :=
  forallb (fun k => _within_circle R (padd c k)) corners0.

Definition _count_with_offset_no_rotation
    (wafer : Wafer) (die : Die) (x_off y_off : F) : result PlacementResult :=
  let R := _usable_radius wafer in
  let px := fadd (width die) (scribe die) in
  let py := fadd (height die) (scribe die) in
  '(ix, iy) <- _grid_bounds R px py ;;
  let grid_x := map (fun i => fadd (fmul (of_int i) px) x_off) ix in
  let grid_y := map (fun j => fadd (fmul (of_int j) py) y_off) iy in
  let centres := meshgrid_xy grid_x grid_y in
  let half_diag := fmul lit_05 (hypot (width die) (height die)) in
  let centres := filter (_within_circle (fsub R half_diag)) centres in
  match centres with
  | [] => Ok (mkPlacementResult 0 lit_0 (x_off, y_off) [])
  | _ :: _ =>
      let corners0 := _corners_local (width die) (height die) in
      let good := filter (all_corners_within R corners0) centres in
      Ok (mkPlacementResult (Z.of_nat (List.length good)) lit_0 (x_off, y_off) good)
  end.

(** *** the stages of the count, named

    The same expressions as in [_count_with_offset_no_rotation], one name
    per stage, for the statements below. *)

Definition pitch_x (die : Die) : F := fadd (width die) (scribe die).
Definition pitch_y (die : Die) : F := fadd (height die) (scribe die).

Definition half_diagonal (die : Die) : F :=
  fmul lit_05 (hypot (width die) (height die)).

(** The centre of the die of lattice index [(i, j)]. *)
Definition centre_at (die : Die) (x_off y_off : F) (ij : Z * Z) : point :=
  (fadd (fmul (of_int (fst ij)) (pitch_x die)) x_off,
   fadd (fmul (of_int (snd ij)) (pitch_y die)) y_off).

(** Stage 1, the coarse prune at radius [R - half_diag]. *)
Definition coarse_pass (wafer : Wafer) (die : Die) (c : point) : bool :=
  _within_circle (fsub (_usable_radius wafer) (half_diagonal die)) c.

(** Stage 2, the exact check of the four corners at radius [R]. *)
Definition exact_pass (wafer : Wafer) (die : Die) (c : point) : bool :=
  all_corners_within (_usable_radius wafer)
    (_corners_local (width die) (height die)) c.

(** The index pairs enumerated for given ranges, in enumeration order. *)
Definition lattice (ix iy : list Z) : list (Z * Z) := meshgrid_xy ix iy.

(** The indices kept by both stages. *)
Definition kept (wafer : Wafer) (die : Die) (x_off y_off : F)
    (ix iy : list Z) : list (Z * Z) :=
  filter (fun ij => exact_pass wafer die (centre_at die x_off y_off ij))
    (filter (fun ij => coarse_pass wafer die (centre_at die x_off y_off ij))
       (lattice ix iy)).

(** *** three fixed iterations *)

Record ThreeRunSummary : Type := mkThreeRunSummary {
  best : PlacementResult;
  per_iter : list (string * PlacementResult);  (* keys "iter1", "iter2", "iter3" *)
  note_iter2 : string
}.

(** The builtin [max(items, key=...)] on a non-empty list: the running
    maximum is replaced only by an item whose key is strictly greater, so
    the first maximal item wins. *)
Fixpoint py_max_key {A : Type} (key : A -> Z) (cur : A) (rest : list A) : A :=
  match rest with
  | [] => cur
  | x :: rest' =>
      if (key x >? key cur)%Z then py_max_key key x rest'
      else py_max_key key cur rest'
  end.

Definition optimise_three_fixed_offsets (wafer : Wafer) (die : Die)
  : result ThreeRunSummary :=
  let px := fadd (width die) (scribe die) in
  let py := fadd (height die) (scribe die) in
  r1 <- _count_with_offset_no_rotation wafer die lit_0 lit_0 ;;
  r2x <- _count_with_offset_no_rotation wafer die (fmul lit_05 px) lit_0 ;;
  r2y <- _count_with_offset_no_rotation wafer die lit_0 (fmul lit_05 py) ;;
  let '(r2, note2) :=
    if (dpw r2x >=? dpw r2y)%Z then (r2x, "x"%string) else (r2y, "y"%string) in
  r3 <- _count_with_offset_no_rotation wafer die (fmul lit_05 px) (fmul lit_05 py) ;;
  let best := py_max_key dpw r1 [r2; r3] in
  Ok (mkThreeRunSummary best
        [("iter1"%string, r1); ("iter2"%string, r2); ("iter3"%string, r3)]
        note2).

Definition wafermap_coordinates (r : PlacementResult) : list point :=
  positions r.

(** ** dieopt/api.py *)

(** [x or 0.0] for an optional float: [None], [0.0] and [-0.0] are falsy. *)
Definition or_zero (x : option F) : F :=
  match x with
  | Some v => if truthy v then v else lit_0
  | None => lit_0
  end.

(** [float(x)] is the identity on floats. *)
Definition _coerce_wafer (wafer : option Wafer)
    (wafer_diameter edge_exclusion : option F) : result Wafer :=
  match wafer with
  | Some w => Ok w
  | None =>
      match wafer_diameter with
      | None => Raise (DieOptError ProvideWafer)
      | Some d => Ok (mkWafer d (or_zero edge_exclusion))
      end
  end.

Definition _coerce_die (die : option Die)
    (width height scribe : option F) : result Die :=
  match die with
  | Some d => Ok d
  | None =>
      match width, height with
      | Some w, Some h => Ok (mkDie w h (or_zero scribe))
      | _, _ => Raise (DieOptError ProvideDie)
      end
  end.

Definition _positions_to_tuples (arr : list point) : list point := arr.

(** The keyword arguments of [dieopt], defaults written by the caller.
    [ax] is only tested for [None]; what is drawn on it is the business of
    the rendering collaborator and is not modelled. *)
Record DieoptArgs : Type := mkDieoptArgs {
  arg_wafer : option Wafer;
  arg_die : option Die;
  arg_wafer_diameter : option F;
  arg_edge_exclusion : option F;
  arg_width : option F;
  arg_height : option F;
  arg_scribe : option F;
  arg_mode : string;
  arg_draw : bool;
  arg_ax : option unit;
  arg_return_summary : bool
}.

Inductive Coords : Type :=
| CoordList (pts : list point)
| CoordMap (by_iter : list (string * list point)).

(** [d[key]] on a dict kept as an association list. *)
Fixpoint dict_get {A : Type} (d : list (string * A)) (key : string) : result A :=
  match d with
  | [] => Raise (KeyError key)
  | (k, v) :: d' => if String.eqb k key then Ok v else dict_get d' key
  end.

Definition mode_in_iters (mode : string) : bool :=
  String.eqb mode "iter1" || String.eqb mode "iter2" || String.eqb mode "iter3".

Definition dieopt (a : DieoptArgs) : result (Coords * option ThreeRunSummary) :=
  w <- _coerce_wafer (arg_wafer a) (arg_wafer_diameter a) (arg_edge_exclusion a) ;;
  d <- _coerce_die (arg_die a) (arg_width a) (arg_height a) (arg_scribe a) ;;
  summary <- optimise_three_fixed_offsets w d ;;
  _ <- (if arg_draw a
        then match arg_ax a with
             | None => Raise (DieOptError DrawNeedsAx)
             | Some _ => Ok tt
             end
        else Ok tt) ;;
  let _to_coords (res : PlacementResult) := _positions_to_tuples (positions res) in
  out <- (if String.eqb (arg_mode a) "best" then
            Ok (CoordList (_to_coords (best summary)))
          else if mode_in_iters (arg_mode a) then
            res <- dict_get (per_iter summary) (arg_mode a) ;;
            Ok (CoordList (_to_coords res))
          else if String.eqb (arg_mode a) "all" then
            Ok (CoordMap (map (fun kv => (fst kv, _to_coords (snd kv)))
                              (per_iter summary)))
          else Raise (DieOptError (UnknownMode (arg_mode a)))) ;;
  Ok (out, if arg_return_summary a then Some summary else None).

(** [DieOpt(wafer, die).run(mode=..., draw=..., ax=..., return_summary=...)]. *)
Definition DieOpt_run (wafer : Wafer) (die : Die) (mode : string) (draw : bool)
    (ax : option unit) (return_summary : bool)
  : result (Coords * option ThreeRunSummary) :=
  dieopt (mkDieoptArgs (Some wafer) (Some die) None None None None None
            mode draw ax return_summary).

End Core.

Arguments Wafer F : clear implicits.
Arguments Die F : clear implicits.
Arguments PlacementResult F : clear implicits.
Arguments point F : clear implicits.
Arguments ThreeRunSummary F : clear implicits.
Arguments DieoptArgs F : clear implicits.
Arguments Coords F : clear implicits.

(** ** The coercion contract in the specification's words

    "either structured Wafer/Die values or individual scalar fields
    (diameter, edge exclusion, width, height, scribe) ... failing with a
    configuration error if neither a structured value nor the complete
    scalar set is supplied". *)

Definition wafer_supplied_spec {F : Type} `{Numeric F} (a : DieoptArgs F) : bool :=
  is_some (arg_wafer a)
  || (is_some (arg_wafer_diameter a) && is_some (arg_edge_exclusion a)).

Definition die_supplied_spec {F : Type} `{Numeric F} (a : DieoptArgs F) : bool :=
  is_some (arg_die a)
  || (is_some (arg_width a) && is_some (arg_height a) && is_some (arg_scribe a)).

(** What the code requires instead. *)
Definition wafer_missing {F : Type} `{Numeric F} (a : DieoptArgs F) : Prop :=
  arg_wafer a = None /\ arg_wafer_diameter a = None.

Definition die_missing {F : Type} `{Numeric F} (a : DieoptArgs F) : Prop :=
  arg_die a = None /\ (arg_width a = None \/ arg_height a = None).

(** ** The index ranges in exact arithmetic

    The half width [ix] (or [iy]) of the index range for one axis, as
    [_grid_bounds] computes it when the division does not raise, and the
    indices the count keeps for it. *)

Definition half_range (R px py pitch : R) : Z :=
  (1 - up (- ((R + py_max2 px py) / pitch)))%Z.

Definition kept_exact (wafer : Wafer R) (die : Die R) (x_off y_off : R)
  : list (Z * Z) :=
  let R := _usable_radius wafer in
  let px := pitch_x die in
  let py := pitch_y die in
  kept wafer die x_off y_off
    (arange (- half_range R px py px) (half_range R px py px + 1))
    (arange (- half_range R px py py) (half_range R px py py + 1)).

(** A die centred at [c] lies in the usable disc: the radius is not
    negative and every corner is at most [R] away from the origin (no
    tolerance). *)
Definition contained (wafer : Wafer R) (die : Die R) (c : point R) : Prop :=
  (0 <= _usable_radius wafer)%R
  /\ forall k, In k (_corners_local (width die) (height die)) ->
       (sq_norm (padd c k) <= _usable_radius wafer * _usable_radius wafer)%R.

(** The index pair [(i, j)] is enumerated by the count. *)
Definition in_window {F : Type} `{Numeric F} (wafer : Wafer F) (die : Die F)
    (i j : Z) : Prop :=
  exists ix iy,
    _grid_bounds (_usable_radius wafer) (pitch_x die) (pitch_y die) = Ok (ix, iy)
    /\ In i ix /\ In j iy.

(** ** The claims of the specification that fail, as stated *)

Module Claimed.

Section Claims.

Context {F : Type} `{Numeric F}.





(** "failing with a configuration error if neither a structured value
    nor the complete scalar set is supplied", and not otherwise. *)
Definition coercion_contract (a : DieoptArgs F) : Prop :=
  raises_config_error (dieopt a)
  <-> wafer_supplied_spec a && die_supplied_spec a = false.

End Claims.

End Claimed.

(** ** Concrete inputs *)

Module Inputs.

(** The wafer and die of the example scripts, in both arithmetics. *)
Definition wafer_2in : Wafer float := mkWafer 50.8%float 2%float.
Definition die_1x1 : Die float := mkDie 1%float 1%float 7%float.






(** What the three-offset run returns on the example. *)
Definition summary_2in : ThreeRunSummary float :=
  Eval vm_compute in
    match optimise_three_fixed_offsets wafer_2in die_1x1 with
    | Ok s => s
    | Raise _ => let r := mkPlacementResult 0 0%float (0%float, 0%float) [] in
                 mkThreeRunSummary r [] ""
    end.

Definition centred_2in : PlacementResult float :=
  Eval vm_compute in
    match _count_with_offset_no_rotation wafer_2in die_1x1 0%float 0%float with
    | Ok r => r
    | Raise _ => mkPlacementResult 0 0%float (0%float, 0%float) []
    end.

(** Scalars only, [edge_exclusion] left out. *)
Definition args_no_edge_exclusion : DieoptArgs float :=
  mkDieoptArgs None None (Some 50.8%float) None
    (Some 1%float) (Some 1%float) (Some 7%float) "best" false None false.

End Inputs.

(** ** The rest of the two files *)


(** A call of [dieopt] with one keyword argument changed. *)
Definition with_mode {F : Type} `{Numeric F} (a : DieoptArgs F) (mode : string)
  : DieoptArgs F :=
  mkDieoptArgs (arg_wafer a) (arg_die a) (arg_wafer_diameter a)
    (arg_edge_exclusion a) (arg_width a) (arg_height a) (arg_scribe a)
    mode (arg_draw a) (arg_ax a) (arg_return_summary a).

Definition with_return_summary {F : Type} `{Numeric F} (a : DieoptArgs F)
    (b : bool) : DieoptArgs F :=
  mkDieoptArgs (arg_wafer a) (arg_die a) (arg_wafer_diameter a)
    (arg_edge_exclusion a) (arg_width a) (arg_height a) (arg_scribe a)
    (arg_mode a) (arg_draw a) (arg_ax a) b.

(** The first component of a returned pair: the coordinates of [dieopt]
    without the optional summary. *)
Definition coords_of {A B : Type} (m : result (A * B)) : result A :=
  match m with
  | Ok ab => Ok (fst ab)
  | Raise e => Raise e
  end.

(** The mode dispatch of [dieopt] on a summary, without drawing. *)
Definition present {F : Type} `{Numeric F} (summary : ThreeRunSummary F)
    (mode : string) : result (Coords F) :=
  if String.eqb mode "best" then
    Ok (CoordList (_positions_to_tuples (positions (best summary))))
  else if mode_in_iters mode then
    res <- dict_get (per_iter summary) mode ;;
    Ok (CoordList (_positions_to_tuples (positions res)))
  else if String.eqb mode "all" then
    Ok (CoordMap (map (fun kv => (fst kv, _positions_to_tuples (positions (snd kv))))
                      (per_iter summary)))
  else Raise (DieOptError (UnknownMode mode)).

(** The precondition of drawing: [draw=True] needs an [ax]. *)
Definition draw_ready {F : Type} `{Numeric F} (a : DieoptArgs F) : bool :=
  negb (arg_draw a) || is_some (arg_ax a).

(** The modes [dieopt] knows. *)
Definition known_mode (mode : string) : bool :=
  String.eqb mode "best" || mode_in_iters mode || String.eqb mode "all".

Module MoreInputs.

(** The example wafer and die passed as values, mode by mode. *)
Definition args_2in (mode : string) (draw : bool) : DieoptArgs float :=
  mkDieoptArgs (Some Inputs.wafer_2in) (Some Inputs.die_1x1)
    None None None None None mode draw None false.

(** Nothing about the wafer, and a die without a height. *)
Definition args_nothing : DieoptArgs float :=
  mkDieoptArgs None None None None (Some 1%float) None None "best" false None false.

(** A wafer value, a die without a height. *)
Definition args_no_height : DieoptArgs float :=
  mkDieoptArgs (Some Inputs.wafer_2in) None None None (Some 1%float) None None
    "best" false None false.

(** A die of no extent and no scribe: both pitches are [0.0]. *)
Definition die_point : Die float := mkDie 0%float 0%float 0%float.

(** The positions of the example run, by mode. *)
Definition coords_2in (mode : string) : list (point float) :=
  Eval vm_compute in
    match dieopt (args_2in mode false) with
    | Ok (CoordList pts, _) => pts
    | _ => []
    end.

(** The mapping of the example run in mode ["all"]. *)
Definition map_2in : list (string * list (point float)) :=
  Eval vm_compute in
    match dieopt (args_2in "all" false) with
    | Ok (CoordMap m, _) => m
    | _ => []
    end.

(** The half-pitch runs of the example along x and along y. *)
Definition half_x_2in : PlacementResult float :=
  Eval vm_compute in
    match _count_with_offset_no_rotation Inputs.wafer_2in Inputs.die_1x1
            4%float 0%float with
    | Ok r => r
    | Raise _ => mkPlacementResult 0 0%float (0%float, 0%float) []
    end.

Definition half_y_2in : PlacementResult float :=
  Eval vm_compute in
    match _count_with_offset_no_rotation Inputs.wafer_2in Inputs.die_1x1
            0%float 4%float with
    | Ok r => r
    | Raise _ => mkPlacementResult 0 0%float (0%float, 0%float) []
    end.


End MoreInputs.

(** * Properties that hold in every arithmetic *)

Section Structure.

Context {F : Type} `{Numeric F}.

Lemma filter_map_comm {A B : Type} (f : A -> B) (p : B -> bool) (l : list A) :
  filter p (map f l) = map f (filter (fun a => p (f a)) l).
Proof.
  induction l as [|a l IH]; simpl; [reflexivity|].
  destruct (p (f a)); simpl; now rewrite IH.
Qed.



Lemma filter_none {A : Type} (f : A -> bool) (l : list A) :
  (forall a, In a l -> f a = false) -> filter f l = [].
Proof.
  induction l as [|a l IH]; simpl; intros Hf; [reflexivity|].
  rewrite (Hf a) by auto. apply IH. auto.
Qed.

Lemma meshgrid_xy_map {A B A' B' : Type} (f : A -> A') (g : B -> B')
    (gx : list A) (gy : list B) :
  meshgrid_xy (map f gx) (map g gy)
  = map (fun ab => (f (fst ab), g (snd ab))) (meshgrid_xy gx gy).
Proof.
  unfold meshgrid_xy.
  induction gy as [|y gy IH]; simpl; [reflexivity|].
  rewrite map_app, IH. f_equal.
  rewrite !map_map. reflexivity.
Qed.

(** What [_count_with_offset_no_rotation] returns, in both branches: the
    centres of the kept indices, and their number. *)
Lemma count_unfold (wafer : Wafer F) (die : Die F) (x_off y_off : F) :
  _count_with_offset_no_rotation wafer die x_off y_off =
  ('(ix, iy) <- _grid_bounds (_usable_radius wafer) (pitch_x die) (pitch_y die) ;;
   let good := map (centre_at die x_off y_off) (kept wafer die x_off y_off ix iy) in
   Ok (mkPlacementResult (Z.of_nat (List.length good)) lit_0 (x_off, y_off) good)).
Proof.
  unfold _count_with_offset_no_rotation. fold (pitch_x die) (pitch_y die).
  destruct (_grid_bounds _ _ _) as [[ix iy]|e]; simpl; [|reflexivity].
  rewrite (meshgrid_xy_map
             (fun i => fadd (fmul (of_int i) (pitch_x die)) x_off)
             (fun j => fadd (fmul (of_int j) (pitch_y die)) y_off)).
  fold (half_diagonal die).
  change (fun ab : Z * Z => _) with (centre_at die x_off y_off).
  rewrite filter_map_comm.
  unfold kept, lattice.
  change (fun a => _within_circle _ (centre_at die x_off y_off a))
    with (fun ij => coarse_pass wafer die (centre_at die x_off y_off ij)).
  change (all_corners_within _ _) with (exact_pass wafer die).
  rewrite (filter_map_comm (centre_at die x_off y_off) (exact_pass wafer die)).
  destruct (filter _ (meshgrid_xy ix iy)) as [|ij l]; reflexivity.
Qed.

Lemma bind_ok {A B : Type} (m : result A) (k : A -> result B) (b : B) :
  bind m k = Ok b -> exists a, m = Ok a /\ k a = Ok b.
Proof. destruct m as [a|e]; simpl; [eauto | discriminate]. Qed.

(** A returned result is the record of the kept centres. *)
Lemma count_ok_inv (wafer : Wafer F) (die : Die F) (x_off y_off : F)
    (r : PlacementResult F) :
  _count_with_offset_no_rotation wafer die x_off y_off = Ok r ->
  exists ix iy,
    _grid_bounds (_usable_radius wafer) (pitch_x die) (pitch_y die) = Ok (ix, iy)
    /\ r = let good := map (centre_at die x_off y_off)
                         (kept wafer die x_off y_off ix iy) in
           mkPlacementResult (Z.of_nat (List.length good)) lit_0 (x_off, y_off) good.
Proof.
  rewrite count_unfold. intros E.
  apply bind_ok in E. destruct E as [[ix iy] [Eg E]].
  exists ix, iy. split; [exact Eg|]. now inversion E.
Qed.

Lemma count_ok_offset (wafer : Wafer F) (die : Die F) (x_off y_off : F)
    (r : PlacementResult F) :
  _count_with_offset_no_rotation wafer die x_off y_off = Ok r ->
  offset r = (x_off, y_off).
Proof.
  intros E. apply count_ok_inv in E. destruct E as (ix & iy & _ & ->). reflexivity.
Qed.

Lemma py_div_raise (x y : F) (e : PyError) :
  py_div x y = Raise e -> arith_error e.
Proof.
  unfold py_div, arith_error. destruct (truthy y); intros E; inversion E; auto.
Qed.

Lemma py_ceil_raise (x : F) (e : PyError) :
  py_ceil x = Raise e -> arith_error e.
Proof.
  unfold py_ceil, arith_error.
  destruct (fceil x); [discriminate|].
  destruct (is_nan x); intros E; inversion E; auto.
Qed.

Lemma grid_bounds_raise (R px py : F) (e : PyError) :
  _grid_bounds R px py = Raise e -> arith_error e.
Proof.
  unfold _grid_bounds.
  destruct (py_div _ px) as [qx|e1] eqn:E1; simpl;
    [|intros E; inversion E; subst; eapply py_div_raise; eassumption].
  destruct (py_ceil qx) as [ix|e2] eqn:E2; simpl;
    [|intros E; inversion E; subst; eapply py_ceil_raise; eassumption].
  destruct (py_div _ py) as [qy|e3] eqn:E3; simpl;
    [|intros E; inversion E; subst; eapply py_div_raise; eassumption].
  destruct (py_ceil qy) as [iy|e4] eqn:E4; simpl;
    [discriminate|intros E; inversion E; subst; eapply py_ceil_raise; eassumption].
Qed.

Lemma count_raise (wafer : Wafer F) (die : Die F) (x_off y_off : F) (e : PyError) :
  _count_with_offset_no_rotation wafer die x_off y_off = Raise e -> arith_error e.
Proof.
  rewrite count_unfold.
  destruct (_grid_bounds _ _ _) as [[ix iy]|e1] eqn:E1; simpl; [discriminate|].
  intros E; inversion E; subst. eapply grid_bounds_raise; eassumption.
Qed.

Lemma optimise_raise (wafer : Wafer F) (die : Die F) (e : PyError) :
  optimise_three_fixed_offsets wafer die = Raise e -> arith_error e.
Proof.
  unfold optimise_three_fixed_offsets.
  repeat match goal with
  | |- bind (_count_with_offset_no_rotation ?w ?d ?x ?y) _ = _ -> _ =>
      let E := fresh "E" in
      destruct (_count_with_offset_no_rotation w d x y) eqn:E; simpl;
      [|intros E'; inversion E'; subst; eapply count_raise; eassumption]
  end.
  destruct (dpw a0 >=? dpw a1)%Z; simpl.
  all: repeat match goal with
  | |- bind (_count_with_offset_no_rotation ?w ?d ?x ?y) _ = _ -> _ =>
      let E := fresh "E" in
      destruct (_count_with_offset_no_rotation w d x y) eqn:E; simpl;
      [|intros E'; inversion E'; subst; eapply count_raise; eassumption]
  end.
  all: discriminate.
Qed.

(** [py_max_key] on three items. *)
Lemma py_max_key_3 {A : Type} (key : A -> Z) (a b c : A) :
  py_max_key key a [b; c] =
  if (key a >=? Z.max (key b) (key c))%Z then a
  else if (key b >=? key c)%Z then b else c.
Proof.
  simpl.
  destruct (key b >? key a)%Z eqn:Eba.
  - destruct (key c >? key b)%Z eqn:Ecb;
      destruct (key a >=? Z.max (key b) (key c))%Z eqn:E1;
      destruct (key b >=? key c)%Z eqn:E2; try reflexivity; lia.
  - destruct (key c >? key a)%Z eqn:Eca;
      destruct (key a >=? Z.max (key b) (key c))%Z eqn:E1;
      destruct (key b >=? key c)%Z eqn:E2; try reflexivity; lia.
Qed.

(** The pieces of a returned summary. *)
Lemma optimise_ok_inv (wafer : Wafer F) (die : Die F) (s : ThreeRunSummary F) :
  optimise_three_fixed_offsets wafer die = Ok s ->
  exists r1 r2x r2y r3,
    let hx := fmul lit_05 (pitch_x die) in
    let hy := fmul lit_05 (pitch_y die) in
    _count_with_offset_no_rotation wafer die lit_0 lit_0 = Ok r1
    /\ _count_with_offset_no_rotation wafer die hx lit_0 = Ok r2x
    /\ _count_with_offset_no_rotation wafer die lit_0 hy = Ok r2y
    /\ _count_with_offset_no_rotation wafer die hx hy = Ok r3
    /\ let r2 := if (dpw r2x >=? dpw r2y)%Z then r2x else r2y in
       s = mkThreeRunSummary (py_max_key dpw r1 [r2; r3])
             [("iter1"%string, r1); ("iter2"%string, r2); ("iter3"%string, r3)]
             (if (dpw r2x >=? dpw r2y)%Z then "x"%string else "y"%string).
Proof.
  unfold optimise_three_fixed_offsets. fold (pitch_x die) (pitch_y die).
  intros E.
  apply bind_ok in E. destruct E as (r1 & E1 & E).
  apply bind_ok in E. destruct E as (r2x & E2x & E).
  apply bind_ok in E. destruct E as (r2y & E2y & E).
  exists r1, r2x, r2y.
  destruct (dpw r2x >=? dpw r2y)%Z.
  - apply bind_ok in E. destruct E as (r3 & E3 & E). exists r3. simpl.
    inversion E. auto 6.
  - apply bind_ok in E. destruct E as (r3 & E3 & E). exists r3. simpl.
    inversion E. auto 6.
Qed.



(** C6: the count of a returned placement is the number of its positions,
    in the short-circuit branch and in the normal branch alike. *)
Theorem dpw_is_length_positions (wafer : Wafer F) (die : Die F) (x_off y_off : F)
    (r : PlacementResult F) :
  _count_with_offset_no_rotation wafer die x_off y_off = Ok r ->
  dpw r = Z.of_nat (List.length (positions r)).
Proof.
  intros E. apply count_ok_inv in E. destruct E as (ix & iy & _ & ->).
  reflexivity.
Qed.

(** C2: every position of a returned placement has its four corners
    (position plus local corner offset) within the usable circle, by the
    test of the source: squared distance from the origin at most
    [R * R * (1 + tol)]. *)
Theorem positions_corners_within (wafer : Wafer F) (die : Die F) (x_off y_off : F)
    (r : PlacementResult F) :
  _count_with_offset_no_rotation wafer die x_off y_off = Ok r ->
  forall p k, In p (positions r) ->
    In k (_corners_local (width die) (height die)) ->
    let R := _usable_radius wafer in
    let cx := fadd (fst p) (fst k) in
    let cy := fadd (snd p) (snd k) in
    fle (fadd (fmul cx cx) (fmul cy cy)) (fmul (fmul R R) (fadd lit_1 lit_tol))
    = true.
Proof.
  intros E p k Hp Hk. apply count_ok_inv in E. destruct E as (ix & iy & _ & ->).
  simpl in Hp. apply in_map_iff in Hp. destruct Hp as (ij & <- & Hij).
  unfold kept in Hij. apply filter_In in Hij. destruct Hij as [_ Hex].
  unfold exact_pass, all_corners_within in Hex.
  rewrite forallb_forall in Hex. exact (Hex k Hk).
Qed.

(** C1: the best of a returned summary has the maximum count of the three
    iterations, and is the earliest iteration that reaches it. *)
Theorem best_is_first_maximum (wafer : Wafer F) (die : Die F)
    (s : ThreeRunSummary F) :
  optimise_three_fixed_offsets wafer die = Ok s ->
  exists r1 r2 r3,
    per_iter s = [("iter1"%string, r1); ("iter2"%string, r2); ("iter3"%string, r3)]
    /\ (dpw r1 <= dpw (best s) /\ dpw r2 <= dpw (best s)
        /\ dpw r3 <= dpw (best s))%Z
    /\ dpw (best s) = Z.max (dpw r1) (Z.max (dpw r2) (dpw r3))
    /\ (dpw r1 = dpw (best s) -> best s = r1)
    /\ ((dpw r1 < dpw (best s))%Z -> dpw r2 = dpw (best s) -> best s = r2)
    /\ ((dpw r1 < dpw (best s))%Z -> (dpw r2 < dpw (best s))%Z -> best s = r3).
Proof.
  intros E. apply optimise_ok_inv in E.
  destruct E as (r1 & r2x & r2y & r3 & _ & _ & _ & _ & ->).
  set (r2 := if (dpw r2x >=? dpw r2y)%Z then r2x else r2y).
  exists r1, r2, r3. cbn [per_iter best].
  split; [reflexivity|].
  rewrite py_max_key_3.
  destruct (dpw r1 >=? Z.max (dpw r2) (dpw r3))%Z eqn:E1;
    [|destruct (dpw r2 >=? dpw r3)%Z eqn:E2].
  all: repeat split; intros; try reflexivity; lia.
Qed.

(** C8: evaluating the count again at the offset of [best] gives [best]
    back, field for field. *)
Theorem best_offset_round_trip (wafer : Wafer F) (die : Die F)
    (s : ThreeRunSummary F) :
  optimise_three_fixed_offsets wafer die = Ok s ->
  _count_with_offset_no_rotation wafer die
    (fst (offset (best s))) (snd (offset (best s))) = Ok (best s).
Proof.
  intros E. apply optimise_ok_inv in E.
  destruct E as (r1 & r2x & r2y & r3 & E1 & E2x & E2y & E3 & ->).
  cbn [best]. rewrite py_max_key_3.
  pose proof (count_ok_offset _ _ _ _ _ E1) as O1.
  pose proof (count_ok_offset _ _ _ _ _ E2x) as O2x.
  pose proof (count_ok_offset _ _ _ _ _ E2y) as O2y.
  pose proof (count_ok_offset _ _ _ _ _ E3) as O3.
  destruct (dpw r2x >=? dpw r2y)%Z;
    repeat match goal with |- context [if ?b then _ else _] => destruct b end.
  all: first [ rewrite O1; exact E1 | rewrite O2x; exact E2x
             | rewrite O2y; exact E2y | rewrite O3; exact E3 ].
Qed.

(** *** the coercion boundary *)

Lemma raises_config_error_Raise {A : Type} (e : PyError) :
  raises_config_error (@Raise A e) <-> config_error e.
Proof.
  unfold raises_config_error. split.
  - intros (e' & E & Hc). inversion E. subst. exact Hc.
  - intros Hc. exists e. auto.
Qed.

Lemma raises_config_error_Ok {A : Type} (a : A) :
  ~ raises_config_error (Ok a).
Proof. intros (e & E & _). discriminate. Qed.

Lemma coerce_wafer_raise (wafer : option (Wafer F)) (wd ee : option F) :
  raises_config_error (_coerce_wafer wafer wd ee)
  <-> wafer = None /\ wd = None.
Proof.
  unfold raises_config_error, config_error.
  destruct wafer as [w|], wd as [d|]; simpl; split; intros Hx;
    try (destruct Hx as (e & E & _); discriminate);
    try (destruct Hx as [E1 E2]; discriminate);
    [auto | eexists; split; [reflexivity|left; reflexivity]].
Qed.

Lemma coerce_die_raise (die : option (Die F)) (w h sc : option F) :
  raises_config_error (_coerce_die die w h sc)
  <-> die = None /\ (w = None \/ h = None).
Proof.
  unfold raises_config_error, config_error.
  destruct die as [d|], w as [w|], h as [h|]; simpl; split; intros Hx;
    try (destruct Hx as (e & E & _); discriminate);
    try (destruct Hx as [E1 [E2|E2]]; discriminate);
    try (eexists; split; [reflexivity|right; reflexivity]);
    auto.
Qed.

Lemma arith_not_config (e : PyError) : arith_error e -> ~ config_error e.
Proof.
  unfold arith_error, config_error.
  intros [->|[->| ->]] [E|E]; discriminate.
Qed.

(** Past the two coercions, [dieopt] raises no configuration error. *)
Lemma dieopt_structured_no_config_error (a : DieoptArgs F) (w : Wafer F) (d : Die F) :
  _coerce_wafer (arg_wafer a) (arg_wafer_diameter a) (arg_edge_exclusion a) = Ok w ->
  _coerce_die (arg_die a) (arg_width a) (arg_height a) (arg_scribe a) = Ok d ->
  ~ raises_config_error (dieopt a).
Proof.
  intros Ew Ed (e & E & Hc). unfold dieopt in E. rewrite Ew, Ed in E. simpl in E.
  destruct (optimise_three_fixed_offsets w d) as [s|e'] eqn:Eo; simpl in E.
  2:{ inversion E; subst. apply optimise_raise in Eo.
      exact (arith_not_config _ Eo Hc). }
  assert (Hp : per_iter s <> [] /\ forall k,
             mode_in_iters k = true -> exists r, dict_get (per_iter s) k = Ok r).
  { apply optimise_ok_inv in Eo.
    destruct Eo as (r1 & r2x & r2y & r3 & _ & _ & _ & _ & ->). split; [discriminate|].
    intros k Hk. unfold mode_in_iters in Hk.
    apply orb_true_iff in Hk. destruct Hk as [Hk|Hk];
      [apply orb_true_iff in Hk; destruct Hk as [Hk|Hk]|].
    all: apply String.eqb_eq in Hk; subst k; simpl; eauto. }
  destruct Hp as [_ Hp].
  destruct (arg_draw a); [destruct (arg_ax a)|]; simpl in E.
  2:{ inversion E; subst. destruct Hc; discriminate. }
  all: destruct (String.eqb (arg_mode a) "best"); simpl in E; [discriminate|].
  all: destruct (mode_in_iters (arg_mode a)) eqn:Em;
    [destruct (Hp _ Em) as [r Er]; rewrite Er in E; discriminate|].
  all: destruct (String.eqb (arg_mode a) "all"); simpl in E; [discriminate|].
  all: inversion E; subst; destruct Hc; discriminate.
Qed.

(** C9, as the code has it: [dieopt] raises a configuration error exactly
    when the wafer is given neither as a value nor by its diameter, or the
    die neither as a value nor by both its width and height. *)
Theorem dieopt_config_error_iff (a : DieoptArgs F) :
  raises_config_error (dieopt a) <-> wafer_missing a \/ die_missing a.
Proof.
  unfold wafer_missing, die_missing.
  rewrite <- coerce_wafer_raise with (ee := arg_edge_exclusion a).
  rewrite <- coerce_die_raise with (sc := arg_scribe a).
  destruct (_coerce_wafer (arg_wafer a) (arg_wafer_diameter a) (arg_edge_exclusion a))
    as [w|e1] eqn:Ew.
  - destruct (_coerce_die (arg_die a) (arg_width a) (arg_height a) (arg_scribe a))
      as [d|e2] eqn:Ed.
    + split.
      * intros Hr. exfalso. exact (dieopt_structured_no_config_error _ _ _ Ew Ed Hr).
      * intros [Hr|Hr]; exfalso; exact (raises_config_error_Ok _ Hr).
    + assert (Hd : dieopt a = Raise e2).
      { unfold dieopt. rewrite Ew, Ed. reflexivity. }
      rewrite Hd, !raises_config_error_Raise. split; [auto|].
      intros [Hr|Hr]; [|exact Hr].
      exfalso. exact (raises_config_error_Ok _ Hr).
  - assert (Hd : dieopt a = Raise e1).
    { unfold dieopt. rewrite Ew. reflexivity. }
    rewrite Hd, !raises_config_error_Raise. split; [auto|].
    intros [Hr|Hr]; [exact Hr|].
    unfold _coerce_wafer in Ew.
    destruct (arg_wafer a); [discriminate|].
    destruct (arg_wafer_diameter a); [discriminate|].
    inversion Ew. left. reflexivity.
Qed.

(** C10: without a structured wafer, a diameter alone is enough and the
    missing edge exclusion is [0.0]; without a structured die, width and
    height are enough and the missing scribe is [0.0]; [dieopt] then runs
    as on the structured values and raises no configuration error. *)
Theorem omitted_scalars_default_to_zero (d w h : F) (mode : string)
    (draw : bool) (ax : option unit) (ret : bool) :
  _coerce_wafer None (Some d) None = Ok (mkWafer d lit_0)
  /\ _coerce_die None (Some w) (Some h) None = Ok (mkDie w h lit_0)
  /\ dieopt (mkDieoptArgs None None (Some d) None (Some w) (Some h) None
               mode draw ax ret)
     = dieopt (mkDieoptArgs (Some (mkWafer d lit_0)) (Some (mkDie w h lit_0))
                 None None None None None mode draw ax ret)
  /\ ~ raises_config_error
         (dieopt (mkDieoptArgs None None (Some d) None (Some w) (Some h) None
                    mode draw ax ret)).
Proof.
  repeat split; try reflexivity.
  eapply dieopt_structured_no_config_error; reflexivity.
Qed.

(** X16: The object interface always passes structured values. *)
Lemma DieOpt_run_no_config_error (wafer : Wafer F) (die : Die F) (mode : string)
    (draw : bool) (ax : option unit) (ret : bool) :
  ~ raises_config_error (DieOpt_run wafer die mode draw ax ret).
Proof.
  unfold DieOpt_run. eapply dieopt_structured_no_config_error; reflexivity.
Qed.

End Structure.


(** * Geometry, in exact arithmetic *)

Section ExactGeometry.

Local Open Scope R_scope.

Implicit Types (wafer : Wafer R) (die : Die R) (c p : point R).

Lemma exact_le_true (a b : R) : Exact.le a b = true <-> a <= b.
Proof.
  unfold Exact.le.
  destruct (Rle_dec a b); split; intros; first [reflexivity | discriminate | lra].
Qed.


Lemma within_circle_exact (r : R) p :
  _within_circle r p = true
  <-> fst p * fst p + snd p * snd p <= r * r * (1 + 1 / 1000000000).
Proof. unfold _within_circle, sq_norm. simpl. apply exact_le_true. Qed.



Lemma half_diagonal_sqr die :
  half_diagonal die * half_diagonal die
  = (width die * width die + height die * height die) / 4.
Proof.
  unfold half_diagonal. simpl. unfold Exact.hypot.
  assert (Hs : 0 <= width die * width die + height die * height die) by nra.
  pose proof (sqrt_sqrt _ Hs) as Hq. nra.
Qed.


(** The exact check, corner by corner. *)
Lemma exact_pass_exact wafer die c :
  exact_pass wafer die c = true <->
  let R := _usable_radius wafer in
  let hw := 1 / 2 * width die in
  let hh := 1 / 2 * height die in
  let bound := R * R * (1 + 1 / 1000000000) in
  (fst c + - hw) * (fst c + - hw) + (snd c + - hh) * (snd c + - hh) <= bound
  /\ (fst c + hw) * (fst c + hw) + (snd c + - hh) * (snd c + - hh) <= bound
  /\ (fst c + hw) * (fst c + hw) + (snd c + hh) * (snd c + hh) <= bound
  /\ (fst c + - hw) * (fst c + - hw) + (snd c + hh) * (snd c + hh) <= bound.
Proof.
  unfold exact_pass, all_corners_within, _corners_local. cbn [forallb].
  rewrite !andb_true_iff, !within_circle_exact. simpl. tauto.
Qed.

(** *** arithmetic of the two tests *)


(** The four corners of a rectangle average to the centre: if all four
    are within a bound, so is centre-squared plus half-diagonal-squared. *)
Lemma four_corners_average (B x y a b : R) :
  (x + - a) * (x + - a) + (y + - b) * (y + - b) <= B ->
  (x + a) * (x + a) + (y + - b) * (y + - b) <= B ->
  (x + a) * (x + a) + (y + b) * (y + b) <= B ->
  (x + - a) * (x + - a) + (y + b) * (y + b) <= B ->
  x * x + y * y + (a * a + b * b) <= B.
Proof. intros. nra. Qed.

Lemma half_extents_sqr die :
  (1 / 2 * width die) * (1 / 2 * width die)
  + (1 / 2 * height die) * (1 / 2 * height die)
  = half_diagonal die * half_diagonal die.
Proof. rewrite half_diagonal_sqr. lra. Qed.

(** A die that passes the exact check has its centre and its half
    diagonal within the tolerated radius. *)
Lemma exact_pass_centre wafer die c :
  exact_pass wafer die c = true ->
  fst c * fst c + snd c * snd c + half_diagonal die * half_diagonal die
  <= _usable_radius wafer * _usable_radius wafer * (1 + 1 / 1000000000).
Proof.
  rewrite exact_pass_exact. cbv zeta. intros (H1 & H2 & H3 & H4).
  rewrite <- half_extents_sqr.
  exact (four_corners_average _ (fst c) (snd c)
           (1 / 2 * width die) (1 / 2 * height die) H1 H2 H3 H4).
Qed.

Lemma exact_pass_small_radius wafer die c :
  _usable_radius wafer * _usable_radius wafer * (1 + 1 / 1000000000)
    < half_diagonal die * half_diagonal die ->
  exact_pass wafer die c = false.
Proof.
  intros Hsmall. destruct (exact_pass wafer die c) eqn:E; [|reflexivity].
  apply exact_pass_centre in E. nra.
Qed.


(** *** the index ranges *)

Lemma in_arange (lo hi k : Z) : In k (arange lo hi) <-> (lo <= k < hi)%Z.
Proof.
  unfold arange. rewrite in_map_iff. split.
  - intros (n & <- & Hn). apply in_seq in Hn. lia.
  - intros Hk. exists (Z.to_nat (k - lo)). split; [lia|].
    apply in_seq. lia.
Qed.

Lemma NoDup_arange (lo hi : Z) : NoDup (arange lo hi).
Proof.
  unfold arange. apply Injective_map_NoDup; [|apply seq_NoDup].
  intros a b E. lia.
Qed.






Lemma py_div_exact (x y : R) : y <> 0 -> py_div x y = Ok (x / y).
Proof.
  intros Hy. unfold py_div. simpl. unfold Exact.truthy.
  destruct (Req_dec_T y 0); [contradiction|reflexivity].
Qed.


(** With non-zero pitches the index ranges exist. *)
Lemma grid_bounds_exact (R px py : R) :
  px <> 0 -> py <> 0 ->
  _grid_bounds R px py
  = Ok (arange (- half_range R px py px) (half_range R px py px + 1),
        arange (- half_range R px py py) (half_range R px py py + 1)).
Proof.
  intros Hx Hy. unfold _grid_bounds.
  rewrite (py_div_exact _ _ Hx). simpl bind.
  rewrite (py_div_exact _ _ Hy). reflexivity.
Qed.

Lemma count_exact wafer die (x_off y_off : R) :
  pitch_x die <> 0 -> pitch_y die <> 0 ->
  _count_with_offset_no_rotation wafer die x_off y_off
  = Ok (mkPlacementResult
          (Z.of_nat (List.length (kept_exact wafer die x_off y_off)))
          0 (x_off, y_off)
          (map (centre_at die x_off y_off) (kept_exact wafer die x_off y_off))).
Proof.
  intros Hx Hy. rewrite count_unfold, (grid_bounds_exact _ _ _ Hx Hy).
  simpl bind. cbv zeta. rewrite length_map. reflexivity.
Qed.


Lemma kept_exact_small_radius wafer die (x_off y_off : R) :
  _usable_radius wafer * _usable_radius wafer * (1 + 1 / 1000000000)
    < half_diagonal die * half_diagonal die ->
  kept_exact wafer die x_off y_off = [].
Proof.
  intros Hsmall. unfold kept_exact, kept. apply filter_none.
  intros ij _. apply exact_pass_small_radius. exact Hsmall.
Qed.


(** The degenerate radius of the data model: [R = 0] and a die that is
    not a point. *)
Lemma zero_radius_counts_zero wafer die (x_off y_off : R) :
  pitch_x die <> 0 -> pitch_y die <> 0 ->
  _usable_radius wafer = 0 -> width die <> 0 \/ height die <> 0 ->
  _count_with_offset_no_rotation wafer die x_off y_off
  = Ok (mkPlacementResult 0 0 (x_off, y_off) []).
Proof.
  intros Hx Hy HR Hdie. rewrite (count_exact _ _ _ _ Hx Hy).
  rewrite kept_exact_small_radius; [reflexivity|].
  rewrite HR, half_diagonal_sqr.
  assert (0 < width die * width die + height die * height die).
  { destruct Hdie as [Hw|Hh].
    - assert (0 < width die * width die) by nra. nra.
    - assert (0 < height die * height die) by nra. nra. }
  lra.
Qed.

(** *** the search window *)

Lemma contained_corners wafer die c :
  contained wafer die c <->
  let R := _usable_radius wafer in
  let hw := 1 / 2 * width die in
  let hh := 1 / 2 * height die in
  0 <= R
  /\ (fst c + - hw) * (fst c + - hw) + (snd c + - hh) * (snd c + - hh) <= R * R
  /\ (fst c + hw) * (fst c + hw) + (snd c + - hh) * (snd c + - hh) <= R * R
  /\ (fst c + hw) * (fst c + hw) + (snd c + hh) * (snd c + hh) <= R * R
  /\ (fst c + - hw) * (fst c + - hw) + (snd c + hh) * (snd c + hh) <= R * R.
Proof.
  unfold contained, _corners_local. cbv zeta. split.
  - intros [HR Hk]. split; [exact HR|].
    pose proof (Hk _ (or_introl eq_refl)) as H1.
    pose proof (Hk _ (or_intror (or_introl eq_refl))) as H2.
    pose proof (Hk _ (or_intror (or_intror (or_introl eq_refl)))) as H3.
    pose proof (Hk _ (or_intror (or_intror (or_intror (or_introl eq_refl))))) as H4.
    repeat split; assumption.
  - intros (HR & H1 & H2 & H3 & H4). split; [exact HR|].
    intros k [<-|[<-|[<-|[<-|[]]]]]; assumption.
Qed.

(** A contained die passes the exact check of the source. *)
Lemma contained_exact_pass wafer die c :
  contained wafer die c -> exact_pass wafer die c = true.
Proof.
  rewrite contained_corners, exact_pass_exact. cbv zeta.
  intros (HR & H1 & H2 & H3 & H4).
  assert (0 <= _usable_radius wafer * _usable_radius wafer) by nra.
  repeat split; lra.
Qed.







(** *** monotonicity in the edge exclusion *)

Lemma in_meshgrid_xy {A B : Type} (gx : list A) (gy : list B) (ab : A * B) :
  In ab (meshgrid_xy gx gy) <-> In (fst ab) gx /\ In (snd ab) gy.
Proof.
  unfold meshgrid_xy. rewrite in_flat_map. destruct ab as [a b]. simpl. split.
  - intros (y & Hy & Hab). apply in_map_iff in Hab.
    destruct Hab as (x & E & Hx). inversion E. subst. auto.
  - intros [Ha Hb]. exists b. split; [exact Hb|].
    apply in_map_iff. exists a. auto.
Qed.








(** *** evaluating the tests on given numbers *)







End ExactGeometry.




(** * Concrete runs *)

Section Runs.

Import Inputs.

(** ** on binary64 *)

Example count_2in_centred :
  _count_with_offset_no_rotation wafer_2in die_1x1 0%float 0%float
  = Ok centred_2in.
Proof. vm_compute. reflexivity. Qed.

Example optimise_2in :
  optimise_three_fixed_offsets wafer_2in die_1x1 = Ok summary_2in.
Proof. vm_compute. reflexivity. Qed.

Example optimise_2in_counts :
  map (fun kv => (fst kv, dpw (snd kv))) (per_iter summary_2in)
  = [("iter1"%string, 25%Z); ("iter2"%string, 26%Z); ("iter3"%string, 24%Z)]
  /\ dpw (best summary_2in) = 26%Z
  /\ offset (best summary_2in) = (4%float, 0%float)
  /\ note_iter2 summary_2in = "x"%string.
Proof. vm_compute. auto. Qed.

(** A die larger than the usable disc: every iteration counts 0. *)
Example optimise_oversized :
  exists s,
    optimise_three_fixed_offsets wafer_2in (mkDie 100%float 100%float 0%float)
    = Ok s
    /\ map (fun kv => (fst kv, dpw (snd kv), positions (snd kv))) (per_iter s)
       = [("iter1"%string, 0%Z, []); ("iter2"%string, 0%Z, []);
          ("iter3"%string, 0%Z, [])].
Proof. eexists. vm_compute. split; reflexivity. Qed.

(** On the example, at each offset of the optimiser, every enumerated
    centre kept by the coarse prune passes the exact check, and a wider edge
    exclusion never counts more. *)
Example coarse_implies_exact_2in :
  forallb
    (fun off =>
       forallb
         (fun ij =>
            implb (coarse_pass wafer_2in die_1x1 (centre_at die_1x1 (fst off) (snd off) ij))
                  (exact_pass wafer_2in die_1x1 (centre_at die_1x1 (fst off) (snd off) ij)))
         (lattice (arange (-4) 5) (arange (-4) 5)))
    [(0, 0); (4, 0); (0, 4); (4, 4)]%float
  = true.
Proof. vm_compute. reflexivity. Qed.

Example edge_exclusion_steps_2in :
  map (fun e =>
         match _count_with_offset_no_rotation (mkWafer 50.8%float e) die_1x1
                 0%float 0%float with
         | Ok r => dpw r
         | Raise _ => (-1)%Z
         end)
      [0; 2; 5; 10; 20; 25]%float
  = [29; 25; 21; 9; 1; 0]%Z.
Proof. vm_compute. reflexivity. Qed.

(** A zero pitch stops the count with [ZeroDivisionError]. *)
Example zero_pitch_raises :
  _count_with_offset_no_rotation wafer_2in (mkDie 0%float 0%float 0%float)
    0%float 0%float
  = Raise ZeroDivisionError.
Proof. vm_compute. reflexivity. Qed.





(** Without [edge_exclusion], [dieopt] returns the 32 positions of the
    best run on the full radius. *)
Example no_edge_exclusion_binary64 :
  exists pts,
    dieopt args_no_edge_exclusion = Ok (CoordList pts, None)
    /\ List.length pts = 32%nat.
Proof. eexists. vm_compute. split; reflexivity. Qed.

End Runs.

Section ExactRuns.

Import Inputs.
Local Open Scope R_scope.

(** ** in exact arithmetic *)














End ExactRuns.

(** * The claims on concrete inputs *)

Section Checks.

Import Inputs.

(** ** where the specification and the code part *)





(** C9 fails as stated: scalars without [edge_exclusion] are not the
    complete scalar set, and [dieopt] raises nothing. *)
Lemma incomplete_scalars_accepted :
  ~ Claimed.coercion_contract args_no_edge_exclusion.
Proof.
  unfold Claimed.coercion_contract. intros [_ Hc].
  destruct (Hc eq_refl) as (e & E & _).
  destruct no_edge_exclusion_binary64 as (pts & Ep & _).
  rewrite Ep in E. discriminate E.
Qed.

(** ** the theorems at work *)

(** The example run: counts 25, 26, 24; the best is iter2. *)
Lemma best_is_first_maximum_witness :
  optimise_three_fixed_offsets wafer_2in die_1x1 = Ok summary_2in
  /\ exists r1 r2 r3,
       per_iter summary_2in
       = [("iter1"%string, r1); ("iter2"%string, r2); ("iter3"%string, r3)]
       /\ (dpw r1 <= dpw (best summary_2in)
           /\ dpw r2 <= dpw (best summary_2in)
           /\ dpw r3 <= dpw (best summary_2in))%Z
       /\ dpw (best summary_2in) = Z.max (dpw r1) (Z.max (dpw r2) (dpw r3))
       /\ (dpw r1 = dpw (best summary_2in) -> best summary_2in = r1)
       /\ ((dpw r1 < dpw (best summary_2in))%Z ->
           dpw r2 = dpw (best summary_2in) -> best summary_2in = r2)
       /\ ((dpw r1 < dpw (best summary_2in))%Z ->
           (dpw r2 < dpw (best summary_2in))%Z -> best summary_2in = r3).
Proof.
  split; [vm_compute; reflexivity|].
  apply (best_is_first_maximum wafer_2in die_1x1 summary_2in).
  vm_compute. reflexivity.
Defined.

(** The first position of the centred example run and its first corner. *)
Lemma positions_corners_within_witness :
  _count_with_offset_no_rotation wafer_2in die_1x1 0%float 0%float
  = Ok centred_2in
  /\ In ((-16)%float, (-16)%float) (positions centred_2in)
  /\ In ((-0.5)%float, (-0.5)%float)
       (_corners_local (width die_1x1) (height die_1x1))
  /\ (let R := _usable_radius wafer_2in in
      let cx := fadd (-16)%float (-0.5)%float in
      let cy := fadd (-16)%float (-0.5)%float in
      fle (fadd (fmul cx cx) (fmul cy cy)) (fmul (fmul R R) (fadd lit_1 lit_tol))
      = true).
Proof.
  assert (E : _count_with_offset_no_rotation wafer_2in die_1x1 0%float 0%float
              = Ok centred_2in) by (vm_compute; reflexivity).
  assert (Hp : In ((-16)%float, (-16)%float) (positions centred_2in))
    by (left; reflexivity).
  assert (Hk : In ((-0.5)%float, (-0.5)%float)
                 (_corners_local (width die_1x1) (height die_1x1)))
    by (left; reflexivity).
  repeat (split; [assumption|]).
  exact (positions_corners_within wafer_2in die_1x1 0%float 0%float centred_2in
           E _ _ Hp Hk).
Defined.

(** The centred example run: 25 positions. *)
Lemma dpw_is_length_positions_witness :
  _count_with_offset_no_rotation wafer_2in die_1x1 0%float 0%float
  = Ok centred_2in
  /\ dpw centred_2in = Z.of_nat (List.length (positions centred_2in)).
Proof.
  split; [vm_compute; reflexivity|].
  apply (dpw_is_length_positions wafer_2in die_1x1 0%float 0%float).
  vm_compute. reflexivity.
Defined.

(** The example run: the count at offset [(4, 0)] is the best again. *)
Lemma best_offset_round_trip_witness :
  optimise_three_fixed_offsets wafer_2in die_1x1 = Ok summary_2in
  /\ _count_with_offset_no_rotation wafer_2in die_1x1
       (fst (offset (best summary_2in))) (snd (offset (best summary_2in)))
     = Ok (best summary_2in).
Proof.
  split; [vm_compute; reflexivity|].
  apply (best_offset_round_trip wafer_2in die_1x1 summary_2in).
  vm_compute. reflexivity.
Defined.

End Checks.

Section ExactChecks.

Import Inputs.
Local Open Scope R_scope.





End ExactChecks.


(** * More on the optimiser, in every arithmetic *)

Section Optimiser.

Context {F : Type} `{Numeric F}.

(** X1: The half-pitch iteration: the x shift is kept unless the y shift counts
    strictly more, and [note_iter2] names the axis kept. *)
Theorem iter2_prefers_x_on_ties (wafer : Wafer F) (die : Die F)
    (s : ThreeRunSummary F) :
  optimise_three_fixed_offsets wafer die = Ok s ->
  exists r2x r2y,
    _count_with_offset_no_rotation wafer die (fmul lit_05 (pitch_x die)) lit_0
    = Ok r2x
    /\ _count_with_offset_no_rotation wafer die lit_0 (fmul lit_05 (pitch_y die))
       = Ok r2y
    /\ ((dpw r2y <= dpw r2x)%Z ->
        dict_get (per_iter s) "iter2" = Ok r2x /\ note_iter2 s = "x"%string)
    /\ ((dpw r2x < dpw r2y)%Z ->
        dict_get (per_iter s) "iter2" = Ok r2y /\ note_iter2 s = "y"%string).
Proof.
  intros E. apply optimise_ok_inv in E.
  destruct E as (r1 & r2x & r2y & r3 & _ & E2x & E2y & _ & ->).
  exists r2x, r2y. split; [exact E2x|]. split; [exact E2y|].
  cbn [per_iter note_iter2 dict_get]. cbn.
  destruct (dpw r2x >=? dpw r2y)%Z eqn:Ec; split; intros Hc;
    first [ split; reflexivity | exfalso; lia ].
Qed.

(** X2: The offsets the three iterations are run at, as the results report
    them: the origin, half a pitch along the axis [note_iter2] names, and
    half a pitch along both; every angle is [0.0]. *)
Theorem iteration_offsets (wafer : Wafer F) (die : Die F) (s : ThreeRunSummary F) :
  optimise_three_fixed_offsets wafer die = Ok s ->
  let hx := fmul lit_05 (pitch_x die) in
  let hy := fmul lit_05 (pitch_y die) in
  exists r1 r2 r3,
    per_iter s = [("iter1"%string, r1); ("iter2"%string, r2); ("iter3"%string, r3)]
    /\ offset r1 = (lit_0, lit_0)
    /\ (note_iter2 s = "x"%string /\ offset r2 = (hx, lit_0)
        \/ note_iter2 s = "y"%string /\ offset r2 = (lit_0, hy))
    /\ offset r3 = (hx, hy)
    /\ Forall (fun kv => angle_deg (snd kv) = lit_0) (per_iter s)
    /\ angle_deg (best s) = lit_0.
Proof.
  intros E hx hy. apply optimise_ok_inv in E.
  destruct E as (r1 & r2x & r2y & r3 & E1 & E2x & E2y & E3 & ->).
  cbv zeta in E2x, E2y, E3. fold hx in E2x, E3. fold hy in E2y, E3.
  assert (Hang : forall x y r,
             _count_with_offset_no_rotation wafer die x y = Ok r ->
             angle_deg r = lit_0).
  { intros x y r Er. apply count_ok_inv in Er.
    destruct Er as (ix & iy & _ & ->). reflexivity. }
  pose proof (count_ok_offset _ _ _ _ _ E1) as O1.
  pose proof (count_ok_offset _ _ _ _ _ E2x) as O2x.
  pose proof (count_ok_offset _ _ _ _ _ E2y) as O2y.
  pose proof (count_ok_offset _ _ _ _ _ E3) as O3.
  pose proof (Hang _ _ _ E1) as A1. pose proof (Hang _ _ _ E2x) as A2x.
  pose proof (Hang _ _ _ E2y) as A2y. pose proof (Hang _ _ _ E3) as A3.
  eexists. eexists. eexists. cbn [per_iter note_iter2 best].
  split; [reflexivity|]. split; [exact O1|].
  rewrite py_max_key_3.
  destruct (dpw r2x >=? dpw r2y)%Z.
  - split; [left; auto|]. split; [exact O3|]. split.
    + repeat constructor; assumption.
    + repeat match goal with |- context [if ?b then _ else _] => destruct b end;
        assumption.
  - split; [right; auto|]. split; [exact O3|]. split.
    + repeat constructor; assumption.
    + repeat match goal with |- context [if ?b then _ else _] => destruct b end;
        assumption.
Qed.

Lemma optimise_raise_of_grid (wafer : Wafer F) (die : Die F) (e : PyError) :
  _grid_bounds (_usable_radius wafer) (pitch_x die) (pitch_y die) = Raise e ->
  optimise_three_fixed_offsets wafer die = Raise e.
Proof.
  intros Eg. unfold optimise_three_fixed_offsets.
  rewrite count_unfold, Eg. reflexivity.
Qed.


(** X4: A zero x pitch (a die of no width and no scribe) raises
    [ZeroDivisionError], whatever the wafer and the y pitch. *)
Theorem zero_pitch_x_raises (wafer : Wafer F) (die : Die F) :
  truthy (pitch_x die) = false ->
  optimise_three_fixed_offsets wafer die = Raise ZeroDivisionError.
Proof.
  intros Hz. apply optimise_raise_of_grid.
  unfold _grid_bounds, py_div. rewrite Hz. reflexivity.
Qed.

(** ** the index ranges and the count *)

Lemma grid_bounds_ok_inv (R px py : F) (xs ys : list Z) :
  _grid_bounds R px py = Ok (xs, ys) ->
  exists ix iy,
    xs = arange (- ix) (ix + 1) /\ ys = arange (- iy) (iy + 1).
Proof.
  unfold _grid_bounds. intros E.
  apply bind_ok in E. destruct E as (qx & _ & E).
  apply bind_ok in E. destruct E as (ix & _ & E).
  apply bind_ok in E. destruct E as (qy & _ & E).
  apply bind_ok in E. destruct E as (iy & _ & E).
  exists ix, iy. split; congruence.
Qed.

Lemma arange_symmetric (n i : Z) :
  In i (arange (- n) (n + 1)) <-> In (- i)%Z (arange (- n) (n + 1)).
Proof. rewrite !in_arange. lia. Qed.

Lemma arange_zero (n : Z) :
  arange (- n) (n + 1) <> [] -> In 0%Z (arange (- n) (n + 1)).
Proof.
  intros Hne. apply in_arange.
  destruct (arange (- n) (n + 1)) as [|k l] eqn:E; [contradiction|].
  assert (Hk : In k (arange (- n) (n + 1))) by (rewrite E; left; reflexivity).
  apply in_arange in Hk. lia.
Qed.

(** X5: Each index range is symmetric about 0, has no repetition, and holds 0
    unless it is empty. *)
Theorem grid_ranges_symmetric (R px py : F) (xs ys : list Z) :
  _grid_bounds R px py = Ok (xs, ys) ->
  (forall i, In i xs <-> In (- i)%Z xs)
  /\ (forall j, In j ys <-> In (- j)%Z ys)
  /\ NoDup xs /\ NoDup ys
  /\ (xs <> [] -> In 0%Z xs) /\ (ys <> [] -> In 0%Z ys).
Proof.
  intros E. apply grid_bounds_ok_inv in E. destruct E as (ix & iy & -> & ->).
  repeat split; try apply arange_symmetric; try apply NoDup_arange;
    apply arange_zero.
Qed.

Lemma length_meshgrid_xy {A B : Type} (gx : list A) (gy : list B) :
  List.length (meshgrid_xy gx gy) = (List.length gy * List.length gx)%nat.
Proof.
  unfold meshgrid_xy. induction gy as [|y gy IH]; simpl; [reflexivity|].
  rewrite length_app, length_map, IH. reflexivity.
Qed.

Lemma length_filter_le {A : Type} (f : A -> bool) (l : list A) :
  (List.length (filter f l) <= List.length l)%nat.
Proof.
  induction l as [|a l IH]; simpl; [lia|]. destruct (f a); simpl; lia.
Qed.

(** X6: The count is never negative and never more than the number of lattice
    points enumerated. *)
Theorem dpw_within_lattice_size (wafer : Wafer F) (die : Die F) (x_off y_off : F)
    (r : PlacementResult F) :
  _count_with_offset_no_rotation wafer die x_off y_off = Ok r ->
  exists xs ys,
    _grid_bounds (_usable_radius wafer) (pitch_x die) (pitch_y die) = Ok (xs, ys)
    /\ (0 <= dpw r <= Z.of_nat (List.length xs * List.length ys))%Z.
Proof.
  intros E. apply count_ok_inv in E. destruct E as (ix & iy & Eg & ->).
  exists ix, iy. split; [exact Eg|]. cbn [dpw]. rewrite length_map.
  unfold kept, lattice.
  pose proof (length_filter_le
                (fun ij => exact_pass wafer die (centre_at die x_off y_off ij))
                (filter (fun ij => coarse_pass wafer die
                                     (centre_at die x_off y_off ij))
                        (meshgrid_xy ix iy))) as H1.
  pose proof (length_filter_le
                (fun ij => coarse_pass wafer die (centre_at die x_off y_off ij))
                (meshgrid_xy ix iy)) as H2.
  rewrite length_meshgrid_xy in H2. lia.
Qed.

(** X7: Every reported position is the centre of an enumerated lattice index
    and lies within the coarse radius: the coarse prune selects, a centre
    it rejects is never reported. *)
Theorem positions_on_lattice_within_coarse (wafer : Wafer F) (die : Die F)
    (x_off y_off : F) (r : PlacementResult F) (p : point F) :
  _count_with_offset_no_rotation wafer die x_off y_off = Ok r ->
  In p (positions r) ->
  exists i j,
    in_window wafer die i j
    /\ p = (fadd (fmul (of_int i) (pitch_x die)) x_off,
            fadd (fmul (of_int j) (pitch_y die)) y_off)
    /\ _within_circle (fsub (_usable_radius wafer) (half_diagonal die)) p = true.
Proof.
  intros E Hp. apply count_ok_inv in E. destruct E as (ix & iy & Eg & ->).
  cbn [positions] in Hp. apply in_map_iff in Hp.
  destruct Hp as ([i j] & <- & Hij).
  unfold kept, lattice in Hij. apply filter_In in Hij. destruct Hij as [Hij _].
  apply filter_In in Hij. destruct Hij as [Hij Hc].
  apply in_meshgrid_xy in Hij. destruct Hij as [Hi Hj].
  exists i, j. split; [|split; [reflexivity|exact Hc]].
  exists ix, iy. auto.
Qed.

End Optimiser.


(** * More on the interface, in every arithmetic *)

Section Interface.

Context {F : Type} `{Numeric F}.

(** [dieopt] past the coercions and the optimiser. *)
Lemma dieopt_after_optimise (a : DieoptArgs F) (w : Wafer F) (d : Die F)
    (s : ThreeRunSummary F) :
  _coerce_wafer (arg_wafer a) (arg_wafer_diameter a) (arg_edge_exclusion a) = Ok w ->
  _coerce_die (arg_die a) (arg_width a) (arg_height a) (arg_scribe a) = Ok d ->
  optimise_three_fixed_offsets w d = Ok s ->
  dieopt a =
  if draw_ready a then
    out <- present s (arg_mode a) ;;
    Ok (out, if arg_return_summary a then Some s else None)
  else Raise (DieOptError DrawNeedsAx).
Proof.
  intros Ew Ed Eo. unfold dieopt, draw_ready, present.
  rewrite Ew. cbn [bind]. rewrite Ed. cbn [bind]. rewrite Eo. cbn [bind].
  destruct (arg_draw a); [destruct (arg_ax a)|]; reflexivity.
Qed.

(** What a returned value of [dieopt] went through. *)
Lemma dieopt_ok_inv (a : DieoptArgs F) (c : Coords F)
    (o : option (ThreeRunSummary F)) :
  dieopt a = Ok (c, o) ->
  exists w d s,
    _coerce_wafer (arg_wafer a) (arg_wafer_diameter a) (arg_edge_exclusion a) = Ok w
    /\ _coerce_die (arg_die a) (arg_width a) (arg_height a) (arg_scribe a) = Ok d
    /\ optimise_three_fixed_offsets w d = Ok s
    /\ draw_ready a = true
    /\ present s (arg_mode a) = Ok c
    /\ o = (if arg_return_summary a then Some s else None).
Proof.
  intros E.
  destruct (_coerce_wafer (arg_wafer a) (arg_wafer_diameter a) (arg_edge_exclusion a))
    as [w|e1] eqn:Ew; [|unfold dieopt in E; rewrite Ew in E; discriminate E].
  destruct (_coerce_die (arg_die a) (arg_width a) (arg_height a) (arg_scribe a))
    as [d|e2] eqn:Ed; [|unfold dieopt in E; rewrite Ew, Ed in E; discriminate E].
  destruct (optimise_three_fixed_offsets w d) as [s|e3] eqn:Eo;
    [|unfold dieopt in E; rewrite Ew, Ed in E; cbn [bind] in E;
      rewrite Eo in E; discriminate E].
  rewrite (dieopt_after_optimise a w d s Ew Ed Eo) in E.
  exists w, d, s.
  destruct (draw_ready a); [|discriminate E].
  destruct (present s (arg_mode a)) as [out|e4]; [|discriminate E].
  cbn [bind] in E. inversion E. subst. auto 7.
Qed.

(** The dict of a returned summary holds the three iteration keys. *)
Lemma per_iter_lookup (w : Wafer F) (d : Die F) (s : ThreeRunSummary F)
    (k : string) :
  optimise_three_fixed_offsets w d = Ok s ->
  mode_in_iters k = true ->
  exists r, dict_get (per_iter s) k = Ok r /\ In (k, r) (per_iter s)
            /\ (dpw r <= dpw (best s))%Z
            /\ dpw r = Z.of_nat (List.length (positions r)).
Proof.
  intros Eo Hk. apply optimise_ok_inv in Eo.
  destruct Eo as (r1 & r2x & r2y & r3 & E1 & E2x & E2y & E3 & ->).
  set (r2 := if (dpw r2x >=? dpw r2y)%Z then r2x else r2y).
  assert (Hlen : forall x y r,
             _count_with_offset_no_rotation w d x y = Ok r ->
             dpw r = Z.of_nat (List.length (positions r))).
  { intros x y r Er. apply count_ok_inv in Er.
    destruct Er as (ix & iy & _ & ->). reflexivity. }
  assert (L1 := Hlen _ _ _ E1). assert (L3 := Hlen _ _ _ E3).
  assert (L2 : dpw r2 = Z.of_nat (List.length (positions r2))).
  { unfold r2. destruct (dpw r2x >=? dpw r2y)%Z; eauto. }
  cbn [per_iter best]. rewrite py_max_key_3.
  assert (Hmax : (dpw r1 <= dpw (if (dpw r1 >=? Z.max (dpw r2) (dpw r3))%Z then r1
                                  else if (dpw r2 >=? dpw r3)%Z then r2 else r3)
                  /\ dpw r2 <= dpw (if (dpw r1 >=? Z.max (dpw r2) (dpw r3))%Z then r1
                                    else if (dpw r2 >=? dpw r3)%Z then r2 else r3)
                  /\ dpw r3 <= dpw (if (dpw r1 >=? Z.max (dpw r2) (dpw r3))%Z then r1
                                    else if (dpw r2 >=? dpw r3)%Z then r2 else r3))%Z).
  { destruct (dpw r1 >=? Z.max (dpw r2) (dpw r3))%Z eqn:C1;
      [|destruct (dpw r2 >=? dpw r3)%Z eqn:C2]; lia. }
  unfold mode_in_iters in Hk.
  apply orb_true_iff in Hk. destruct Hk as [Hk|Hk];
    [apply orb_true_iff in Hk; destruct Hk as [Hk|Hk]|].
  all: apply String.eqb_eq in Hk; subst k; cbn [dict_get String.eqb Ascii.eqb Bool.eqb].
  - exists r1. simpl. intuition.
  - exists r2. simpl. intuition.
  - exists r3. simpl. intuition.
Qed.

Lemma present_unknown (s : ThreeRunSummary F) (mode : string) :
  known_mode mode = false ->
  present s mode = Raise (DieOptError (UnknownMode mode)).
Proof.
  unfold known_mode, present. intros Hk.
  apply orb_false_iff in Hk. destruct Hk as [Hk Hall].
  apply orb_false_iff in Hk. destruct Hk as [Hbest Hit].
  rewrite Hbest, Hit, Hall. reflexivity.
Qed.

(** X8: An unknown mode is only reported after the optimisation has run and
    the drawing precondition has passed: then [dieopt] raises the
    unknown-mode error carrying the mode. *)
Theorem unknown_mode_raises (a : DieoptArgs F) (w : Wafer F) (d : Die F)
    (s : ThreeRunSummary F) :
  _coerce_wafer (arg_wafer a) (arg_wafer_diameter a) (arg_edge_exclusion a) = Ok w ->
  _coerce_die (arg_die a) (arg_width a) (arg_height a) (arg_scribe a) = Ok d ->
  optimise_three_fixed_offsets w d = Ok s ->
  draw_ready a = true ->
  known_mode (arg_mode a) = false ->
  dieopt a = Raise (DieOptError (UnknownMode (arg_mode a))).
Proof.
  intros Ew Ed Eo Hdraw Hk.
  rewrite (dieopt_after_optimise a w d s Ew Ed Eo), Hdraw.
  rewrite (present_unknown s _ Hk). reflexivity.
Qed.

(** X9: [draw=True] without an [ax] raises its own error once the optimisation
    has succeeded, whatever the mode, known or not. *)
Theorem draw_without_ax_raises (a : DieoptArgs F) (w : Wafer F) (d : Die F)
    (s : ThreeRunSummary F) :
  _coerce_wafer (arg_wafer a) (arg_wafer_diameter a) (arg_edge_exclusion a) = Ok w ->
  _coerce_die (arg_die a) (arg_width a) (arg_height a) (arg_scribe a) = Ok d ->
  optimise_three_fixed_offsets w d = Ok s ->
  arg_draw a = true -> arg_ax a = None ->
  dieopt a = Raise (DieOptError DrawNeedsAx).
Proof.
  intros Ew Ed Eo Hdraw Hax.
  rewrite (dieopt_after_optimise a w d s Ew Ed Eo).
  unfold draw_ready. rewrite Hdraw, Hax. reflexivity.
Qed.


(** X11: A missing wafer is reported before anything is asked about the die:
    with neither a [Wafer] nor a diameter the error is the wafer's, also
    when the die is incomplete too. *)
Theorem missing_wafer_reported_first (a : DieoptArgs F) :
  wafer_missing a -> dieopt a = Raise (DieOptError ProvideWafer).
Proof.
  intros [Hw Hd]. unfold dieopt, _coerce_wafer. rewrite Hw, Hd. reflexivity.
Qed.

(** With a wafer at hand, a die given neither as a [Die] nor by both its
    width and height raises the die's error. *)
Theorem missing_die_reported (a : DieoptArgs F) (w : Wafer F) :
  _coerce_wafer (arg_wafer a) (arg_wafer_diameter a) (arg_edge_exclusion a) = Ok w ->
  die_missing a -> dieopt a = Raise (DieOptError ProvideDie).
Proof.
  intros Ew [Hd Hwh]. unfold dieopt. rewrite Ew. cbn [bind].
  unfold _coerce_die. rewrite Hd.
  destruct Hwh as [-> | ->]; [reflexivity|].
  destruct (arg_width a); reflexivity.
Qed.

(** X12: The mode ["best"] returns as many coordinates as the longest of the
    three iteration modes, which return theirs under the same summary; and
    one of them returns the very same list. *)
Theorem best_mode_is_longest (a : DieoptArgs F) (best_pts : list (point F))
    (o : option (ThreeRunSummary F)) :
  dieopt (with_mode a "best") = Ok (CoordList best_pts, o) ->
  (forall k, mode_in_iters k = true ->
     exists pts,
       dieopt (with_mode a k) = Ok (CoordList pts, o)
       /\ (List.length pts <= List.length best_pts)%nat)
  /\ exists k, mode_in_iters k = true
               /\ dieopt (with_mode a k) = Ok (CoordList best_pts, o).
Proof.
  intros E. apply dieopt_ok_inv in E.
  destruct E as (w & d & s & Ew & Ed & Eo & Hdraw & Hp & ->).
  change (draw_ready (with_mode a "best")) with (draw_ready a) in Hdraw.
  cbn [with_mode arg_wafer arg_wafer_diameter arg_edge_exclusion arg_die
       arg_width arg_height arg_scribe arg_mode arg_return_summary] in *.
  unfold present in Hp. cbn in Hp. injection Hp as <-.
  assert (Hrun : forall k r,
             mode_in_iters k = true -> dict_get (per_iter s) k = Ok r ->
             dieopt (with_mode a k)
             = Ok (CoordList (positions r),
                   if arg_return_summary a then Some s else None)).
  { intros k r Hk Er.
    rewrite (dieopt_after_optimise (with_mode a k) w d s Ew Ed Eo).
    change (draw_ready (with_mode a k)) with (draw_ready a). rewrite Hdraw.
    cbn [with_mode arg_mode arg_return_summary]. unfold present.
    destruct (String.eqb k "best") eqn:Hb.
    { apply String.eqb_eq in Hb. subst k. discriminate Hk. }
    rewrite Hk, Er. reflexivity. }
  split.
  - intros k Hk.
    destruct (per_iter_lookup w d s k Eo Hk) as (r & Er & _ & Hle & Hlen).
    exists (positions r). split; [exact (Hrun k r Hk Er)|].
    unfold _positions_to_tuples.
    assert (Hb : dpw (best s) = Z.of_nat (List.length (positions (best s)))).
    { pose proof Eo as Eo'. apply optimise_ok_inv in Eo'.
      destruct Eo' as (r1 & r2x & r2y & r3 & E1 & E2x & E2y & E3 & Es).
      assert (Hl : forall x y r0,
                 _count_with_offset_no_rotation w d x y = Ok r0 ->
                 dpw r0 = Z.of_nat (List.length (positions r0))).
      { intros x y r0 Er0. apply count_ok_inv in Er0.
        destruct Er0 as (ix & iy & _ & ->). reflexivity. }
      rewrite Es. cbn [best]. rewrite py_max_key_3.
      repeat match goal with |- context [if ?b then _ else _] => destruct b end;
        eauto. }
    lia.
  - pose proof Eo as Eo'. apply optimise_ok_inv in Eo'.
    destruct Eo' as (r1 & r2x & r2y & r3 & _ & _ & _ & _ & Es).
    set (r2 := if (dpw r2x >=? dpw r2y)%Z then r2x else r2y) in Es.
    assert (Hbest : best s = r1 \/ best s = r2 \/ best s = r3).
    { rewrite Es. cbn [best]. rewrite py_max_key_3.
      repeat match goal with |- context [if ?b then _ else _] => destruct b end;
        auto. }
    assert (Hd : dict_get (per_iter s) "iter1" = Ok r1
                 /\ dict_get (per_iter s) "iter2" = Ok r2
                 /\ dict_get (per_iter s) "iter3" = Ok r3).
    { rewrite Es. cbn. auto. }
    destruct Hd as (D1 & D2 & D3). unfold _positions_to_tuples.
    destruct Hbest as [-> | [-> | ->]].
    + exists "iter1"%string. split; [reflexivity|]. exact (Hrun "iter1"%string _ eq_refl D1).
    + exists "iter2"%string. split; [reflexivity|]. exact (Hrun "iter2"%string _ eq_refl D2).
    + exists "iter3"%string. split; [reflexivity|]. exact (Hrun "iter3"%string _ eq_refl D3).
Qed.

Lemma dieopt_iter_mode (a : DieoptArgs F) (w : Wafer F) (d : Die F)
    (s : ThreeRunSummary F) (k : string) (r : PlacementResult F) :
  _coerce_wafer (arg_wafer a) (arg_wafer_diameter a) (arg_edge_exclusion a) = Ok w ->
  _coerce_die (arg_die a) (arg_width a) (arg_height a) (arg_scribe a) = Ok d ->
  optimise_three_fixed_offsets w d = Ok s ->
  draw_ready a = true ->
  mode_in_iters k = true -> dict_get (per_iter s) k = Ok r ->
  dieopt (with_mode a k)
  = Ok (CoordList (positions r), if arg_return_summary a then Some s else None).
Proof.
  intros Ew Ed Eo Hdraw Hk Er.
  rewrite (dieopt_after_optimise (with_mode a k) w d s Ew Ed Eo).
  change (draw_ready (with_mode a k)) with (draw_ready a). rewrite Hdraw.
  cbn [with_mode arg_mode arg_return_summary]. unfold present.
  destruct (String.eqb k "best") eqn:Hb.
  { apply String.eqb_eq in Hb. subst k. discriminate Hk. }
  rewrite Hk, Er. reflexivity.
Qed.

(** X13: The mode ["all"] returns a mapping with the keys ["iter1"], ["iter2"],
    ["iter3"] in that order, and under each key the coordinates that the
    mode of that name returns. *)
Theorem all_mode_agrees_with_iteration_modes (a : DieoptArgs F)
    (m : list (string * list (point F))) (o : option (ThreeRunSummary F)) :
  dieopt (with_mode a "all") = Ok (CoordMap m, o) ->
  map fst m = ["iter1"; "iter2"; "iter3"]%string
  /\ forall k pts, In (k, pts) m ->
       dieopt (with_mode a k) = Ok (CoordList pts, o).
Proof.
  intros E. apply dieopt_ok_inv in E.
  destruct E as (w & d & s & Ew & Ed & Eo & Hdraw & Hp & ->).
  change (draw_ready (with_mode a "all")) with (draw_ready a) in Hdraw.
  cbn [with_mode arg_wafer arg_wafer_diameter arg_edge_exclusion arg_die
       arg_width arg_height arg_scribe arg_mode arg_return_summary] in *.
  unfold present in Hp. cbn in Hp. injection Hp as <-.
  pose proof Eo as Eo'. apply optimise_ok_inv in Eo'.
  destruct Eo' as (r1 & r2x & r2y & r3 & _ & _ & _ & _ & Es).
  set (r2 := if (dpw r2x >=? dpw r2y)%Z then r2x else r2y) in Es.
  assert (Hper : per_iter s
                 = [("iter1"%string, r1); ("iter2"%string, r2); ("iter3"%string, r3)]).
  { rewrite Es. reflexivity. }
  rewrite Hper. split; [reflexivity|].
  intros k pts Hin. unfold _positions_to_tuples in Hin. cbn in Hin.
  destruct Hin as [Hin|[Hin|[Hin|[]]]]; injection Hin as <- <-.
  - apply (dieopt_iter_mode a w d s); auto. rewrite Hper. reflexivity.
  - apply (dieopt_iter_mode a w d s); auto. rewrite Hper. reflexivity.
  - apply (dieopt_iter_mode a w d s); auto. rewrite Hper. reflexivity.
Qed.

(** X14: [return_summary] does not change the coordinates or the exception; with
    it the summary returned is the optimiser's on the coerced wafer and
    die, without it there is none. *)
Theorem return_summary_only_adds_the_summary (a : DieoptArgs F) :
  (forall b, coords_of (dieopt (with_return_summary a b)) = coords_of (dieopt a))
  /\ (forall c o, dieopt (with_return_summary a true) = Ok (c, o) ->
        exists w d s,
          _coerce_wafer (arg_wafer a) (arg_wafer_diameter a) (arg_edge_exclusion a)
          = Ok w
          /\ _coerce_die (arg_die a) (arg_width a) (arg_height a) (arg_scribe a)
             = Ok d
          /\ optimise_three_fixed_offsets w d = Ok s /\ o = Some s)
  /\ (forall c o, dieopt (with_return_summary a false) = Ok (c, o) -> o = None).
Proof.
  split; [|split].
  - intros b. unfold dieopt.
    cbn [with_return_summary arg_wafer arg_wafer_diameter arg_edge_exclusion
         arg_die arg_width arg_height arg_scribe arg_mode arg_draw arg_ax
         arg_return_summary].
    destruct (_coerce_wafer _ _ _) as [w|e1]; [|reflexivity]. cbn [bind].
    destruct (_coerce_die _ _ _ _) as [d|e2]; [|reflexivity]. cbn [bind].
    destruct (optimise_three_fixed_offsets w d) as [s|e3]; [|reflexivity].
    cbn [bind].
    destruct (arg_draw a); [destruct (arg_ax a)|]; cbn [bind]; try reflexivity.
    all: match goal with
         | |- coords_of (bind ?m _) = coords_of (bind ?m _) =>
             destruct m; reflexivity
         end.
  - intros c o E. apply dieopt_ok_inv in E.
    destruct E as (w & d & s & Ew & Ed & Eo & _ & _ & ->).
    exists w, d, s. auto.
  - intros c o E. apply dieopt_ok_inv in E.
    destruct E as (w & d & s & _ & _ & _ & _ & _ & ->). reflexivity.
Qed.

(** X15: In mode ["best"] the coordinates are [wafermap_coordinates] of the
    optimiser's best result on the coerced wafer and die, as many as its
    count. *)
Theorem best_mode_returns_wafermap_of_best (a : DieoptArgs F)
    (pts : list (point F)) (o : option (ThreeRunSummary F)) :
  dieopt (with_mode a "best") = Ok (CoordList pts, o) ->
  exists w d s,
    _coerce_wafer (arg_wafer a) (arg_wafer_diameter a) (arg_edge_exclusion a) = Ok w
    /\ _coerce_die (arg_die a) (arg_width a) (arg_height a) (arg_scribe a) = Ok d
    /\ optimise_three_fixed_offsets w d = Ok s
    /\ pts = wafermap_coordinates (best s)
    /\ Z.of_nat (List.length pts) = dpw (best s).
Proof.
  intros E. apply dieopt_ok_inv in E.
  destruct E as (w & d & s & Ew & Ed & Eo & _ & Hp & _).
  cbn [with_mode arg_wafer arg_wafer_diameter arg_edge_exclusion arg_die
       arg_width arg_height arg_scribe arg_mode] in *.
  unfold present in Hp. cbn in Hp. injection Hp as <-.
  exists w, d, s. repeat (split; [assumption|]).
  split; [reflexivity|].
  unfold _positions_to_tuples.
  pose proof Eo as Eo'. apply optimise_ok_inv in Eo'.
  destruct Eo' as (r1 & r2x & r2y & r3 & E1 & E2x & E2y & E3 & Es).
  assert (Hl : forall x y r0,
             _count_with_offset_no_rotation w d x y = Ok r0 ->
             Z.of_nat (List.length (positions r0)) = dpw r0).
  { intros x y r0 Er0. apply count_ok_inv in Er0.
    destruct Er0 as (ix & iy & _ & ->). reflexivity. }
  rewrite Es. cbn [best]. rewrite py_max_key_3.
  repeat match goal with |- context [if ?b then _ else _] => destruct b end;
    eauto.
Qed.

End Interface.


(** * More geometry, in exact arithmetic *)

Section ExactMore.

Local Open Scope R_scope.

Implicit Types (wafer : Wafer R) (die : Die R) (c p : point R).
















End ExactMore.


(** * The further properties at work *)

Section MoreChecks.

Import Inputs MoreInputs.

(** The example run: the x shift counts 26, the y shift 26, x is kept. *)
Lemma iter2_prefers_x_on_ties_witness :
  optimise_three_fixed_offsets wafer_2in die_1x1 = Ok summary_2in
  /\ exists r2x r2y,
       _count_with_offset_no_rotation wafer_2in die_1x1
         (fmul lit_05 (pitch_x die_1x1)) lit_0 = Ok r2x
       /\ _count_with_offset_no_rotation wafer_2in die_1x1
            lit_0 (fmul lit_05 (pitch_y die_1x1)) = Ok r2y
       /\ ((dpw r2y <= dpw r2x)%Z ->
           dict_get (per_iter summary_2in) "iter2" = Ok r2x
           /\ note_iter2 summary_2in = "x"%string)
       /\ ((dpw r2x < dpw r2y)%Z ->
           dict_get (per_iter summary_2in) "iter2" = Ok r2y
           /\ note_iter2 summary_2in = "y"%string).
Proof.
  assert (E : optimise_three_fixed_offsets wafer_2in die_1x1 = Ok summary_2in)
    by (vm_compute; reflexivity).
  split; [exact E|].
  exact (iter2_prefers_x_on_ties wafer_2in die_1x1 summary_2in E).
Defined.

Example half_pitch_runs_tie :
  _count_with_offset_no_rotation wafer_2in die_1x1 4%float 0%float = Ok half_x_2in
  /\ _count_with_offset_no_rotation wafer_2in die_1x1 0%float 4%float
     = Ok half_y_2in
  /\ dpw half_x_2in = 26%Z /\ dpw half_y_2in = 26%Z
  /\ dict_get (per_iter summary_2in) "iter2" = Ok half_x_2in.
Proof. vm_compute. auto 6. Qed.

Lemma iteration_offsets_witness :
  optimise_three_fixed_offsets wafer_2in die_1x1 = Ok summary_2in
  /\ (let hx := fmul lit_05 (pitch_x die_1x1) in
      let hy := fmul lit_05 (pitch_y die_1x1) in
      exists r1 r2 r3,
        per_iter summary_2in
        = [("iter1"%string, r1); ("iter2"%string, r2); ("iter3"%string, r3)]
        /\ offset r1 = (lit_0, lit_0)
        /\ (note_iter2 summary_2in = "x"%string /\ offset r2 = (hx, lit_0)
            \/ note_iter2 summary_2in = "y"%string /\ offset r2 = (lit_0, hy))
        /\ offset r3 = (hx, hy)
        /\ Forall (fun kv => angle_deg (snd kv) = lit_0) (per_iter summary_2in)
        /\ angle_deg (best summary_2in) = lit_0).
Proof.
  assert (E : optimise_three_fixed_offsets wafer_2in die_1x1 = Ok summary_2in)
    by (vm_compute; reflexivity).
  split; [exact E|].
  exact (iteration_offsets wafer_2in die_1x1 summary_2in E).
Defined.

(** The die of no extent: [-0.0] and [0.0] alike are zero pitches. *)
Lemma zero_pitch_x_raises_witness :
  truthy (pitch_x die_point) = false
  /\ optimise_three_fixed_offsets wafer_2in die_point = Raise ZeroDivisionError.
Proof.
  assert (Hz : truthy (pitch_x die_point) = false) by (vm_compute; reflexivity).
  split; [exact Hz|].
  exact (zero_pitch_x_raises wafer_2in die_point Hz).
Defined.

Lemma grid_ranges_symmetric_witness :
  _grid_bounds (_usable_radius wafer_2in) (pitch_x die_1x1) (pitch_y die_1x1)
  = Ok (arange (-4) 5, arange (-4) 5)
  /\ ((forall i, In i (arange (-4) 5) <-> In (- i)%Z (arange (-4) 5))
      /\ (forall j, In j (arange (-4) 5) <-> In (- j)%Z (arange (-4) 5))
      /\ NoDup (arange (-4) 5) /\ NoDup (arange (-4) 5)
      /\ (arange (-4) 5 <> [] -> In 0%Z (arange (-4) 5))
      /\ (arange (-4) 5 <> [] -> In 0%Z (arange (-4) 5))).
Proof.
  assert (E : _grid_bounds (_usable_radius wafer_2in) (pitch_x die_1x1)
                (pitch_y die_1x1)
              = Ok (arange (-4) 5, arange (-4) 5)) by (vm_compute; reflexivity).
  split; [exact E|].
  exact (grid_ranges_symmetric _ _ _ _ _ E).
Defined.

Lemma dpw_within_lattice_size_witness :
  _count_with_offset_no_rotation wafer_2in die_1x1 0%float 0%float
  = Ok centred_2in
  /\ exists xs ys,
       _grid_bounds (_usable_radius wafer_2in) (pitch_x die_1x1) (pitch_y die_1x1)
       = Ok (xs, ys)
       /\ (0 <= dpw centred_2in
           <= Z.of_nat (List.length xs * List.length ys))%Z.
Proof.
  assert (E : _count_with_offset_no_rotation wafer_2in die_1x1 0%float 0%float
              = Ok centred_2in) by (vm_compute; reflexivity).
  split; [exact E|].
  exact (dpw_within_lattice_size wafer_2in die_1x1 0%float 0%float centred_2in E).
Defined.

Lemma positions_on_lattice_within_coarse_witness :
  _count_with_offset_no_rotation wafer_2in die_1x1 0%float 0%float
  = Ok centred_2in
  /\ In ((-16)%float, (-16)%float) (positions centred_2in)
  /\ exists i j,
       in_window wafer_2in die_1x1 i j
       /\ ((-16)%float, (-16)%float)
          = (fadd (fmul (of_int i) (pitch_x die_1x1)) 0%float,
             fadd (fmul (of_int j) (pitch_y die_1x1)) 0%float)
       /\ _within_circle (fsub (_usable_radius wafer_2in) (half_diagonal die_1x1))
            ((-16)%float, (-16)%float) = true.
Proof.
  assert (E : _count_with_offset_no_rotation wafer_2in die_1x1 0%float 0%float
              = Ok centred_2in) by (vm_compute; reflexivity).
  assert (Hp : In ((-16)%float, (-16)%float) (positions centred_2in))
    by (left; reflexivity).
  split; [exact E|]. split; [exact Hp|].
  exact (positions_on_lattice_within_coarse wafer_2in die_1x1 0%float 0%float
           centred_2in _ E Hp).
Defined.

Lemma unknown_mode_raises_witness :
  _coerce_wafer (arg_wafer (args_2in "median" false))
    (arg_wafer_diameter (args_2in "median" false))
    (arg_edge_exclusion (args_2in "median" false)) = Ok wafer_2in
  /\ _coerce_die (arg_die (args_2in "median" false))
       (arg_width (args_2in "median" false)) (arg_height (args_2in "median" false))
       (arg_scribe (args_2in "median" false)) = Ok die_1x1
  /\ optimise_three_fixed_offsets wafer_2in die_1x1 = Ok summary_2in
  /\ draw_ready (args_2in "median" false) = true
  /\ known_mode (arg_mode (args_2in "median" false)) = false
  /\ dieopt (args_2in "median" false)
     = Raise (DieOptError (UnknownMode (arg_mode (args_2in "median" false)))).
Proof.
  assert (Eo : optimise_three_fixed_offsets wafer_2in die_1x1 = Ok summary_2in)
    by (vm_compute; reflexivity).
  repeat (split; [first [exact Eo | reflexivity]|]).
  exact (unknown_mode_raises (args_2in "median" false) wafer_2in die_1x1
           summary_2in eq_refl eq_refl Eo eq_refl eq_refl).
Defined.

Lemma draw_without_ax_raises_witness :
  _coerce_wafer (arg_wafer (args_2in "best" true))
    (arg_wafer_diameter (args_2in "best" true))
    (arg_edge_exclusion (args_2in "best" true)) = Ok wafer_2in
  /\ _coerce_die (arg_die (args_2in "best" true))
       (arg_width (args_2in "best" true)) (arg_height (args_2in "best" true))
       (arg_scribe (args_2in "best" true)) = Ok die_1x1
  /\ optimise_three_fixed_offsets wafer_2in die_1x1 = Ok summary_2in
  /\ arg_draw (args_2in "best" true) = true
  /\ arg_ax (args_2in "best" true) = None
  /\ dieopt (args_2in "best" true) = Raise (DieOptError DrawNeedsAx).
Proof.
  assert (Eo : optimise_three_fixed_offsets wafer_2in die_1x1 = Ok summary_2in)
    by (vm_compute; reflexivity).
  repeat (split; [first [exact Eo | reflexivity]|]).
  exact (draw_without_ax_raises (args_2in "best" true) wafer_2in die_1x1
           summary_2in eq_refl eq_refl Eo eq_refl eq_refl).
Defined.


Lemma missing_wafer_reported_first_witness :
  wafer_missing args_nothing /\ die_missing args_nothing
  /\ dieopt args_nothing = Raise (DieOptError ProvideWafer).
Proof.
  assert (Hw : wafer_missing args_nothing) by (split; reflexivity).
  split; [exact Hw|]. split; [split; [reflexivity|right; reflexivity]|].
  exact (missing_wafer_reported_first args_nothing Hw).
Defined.

Lemma missing_die_reported_witness :
  _coerce_wafer (arg_wafer args_no_height) (arg_wafer_diameter args_no_height)
    (arg_edge_exclusion args_no_height) = Ok wafer_2in
  /\ die_missing args_no_height
  /\ dieopt args_no_height = Raise (DieOptError ProvideDie).
Proof.
  assert (Hd : die_missing args_no_height)
    by (split; [reflexivity|right; reflexivity]).
  split; [reflexivity|]. split; [exact Hd|].
  exact (missing_die_reported args_no_height wafer_2in eq_refl Hd).
Defined.

Lemma best_mode_is_longest_witness :
  dieopt (with_mode (args_2in "best" false) "best")
  = Ok (CoordList (coords_2in "best"), None)
  /\ ((forall k, mode_in_iters k = true ->
         exists pts,
           dieopt (with_mode (args_2in "best" false) k) = Ok (CoordList pts, None)
           /\ (List.length pts <= List.length (coords_2in "best"))%nat)
      /\ exists k, mode_in_iters k = true
                   /\ dieopt (with_mode (args_2in "best" false) k)
                      = Ok (CoordList (coords_2in "best"), None)).
Proof.
  assert (E : dieopt (with_mode (args_2in "best" false) "best")
              = Ok (CoordList (coords_2in "best"), None))
    by (vm_compute; reflexivity).
  split; [exact E|].
  exact (best_mode_is_longest (args_2in "best" false) _ _ E).
Defined.

Example mode_lengths_2in :
  map (fun m => List.length (coords_2in m)) ["best"; "iter1"; "iter2"; "iter3"]%string
  = [26; 25; 26; 24]%nat.
Proof. vm_compute. reflexivity. Qed.

Lemma all_mode_agrees_with_iteration_modes_witness :
  dieopt (with_mode (args_2in "best" false) "all") = Ok (CoordMap map_2in, None)
  /\ (map fst map_2in = ["iter1"; "iter2"; "iter3"]%string
      /\ forall k pts, In (k, pts) map_2in ->
           dieopt (with_mode (args_2in "best" false) k) = Ok (CoordList pts, None)).
Proof.
  assert (E : dieopt (with_mode (args_2in "best" false) "all")
              = Ok (CoordMap map_2in, None)) by (vm_compute; reflexivity).
  split; [exact E|].
  exact (all_mode_agrees_with_iteration_modes (args_2in "best" false) _ _ E).
Defined.

Lemma best_mode_returns_wafermap_of_best_witness :
  dieopt (with_mode (args_2in "iter1" false) "best")
  = Ok (CoordList (coords_2in "best"), None)
  /\ exists w d s,
       _coerce_wafer (arg_wafer (args_2in "iter1" false))
         (arg_wafer_diameter (args_2in "iter1" false))
         (arg_edge_exclusion (args_2in "iter1" false)) = Ok w
       /\ _coerce_die (arg_die (args_2in "iter1" false))
            (arg_width (args_2in "iter1" false))
            (arg_height (args_2in "iter1" false))
            (arg_scribe (args_2in "iter1" false)) = Ok d
       /\ optimise_three_fixed_offsets w d = Ok s
       /\ coords_2in "best" = wafermap_coordinates (best s)
       /\ Z.of_nat (List.length (coords_2in "best")) = dpw (best s).
Proof.
  assert (E : dieopt (with_mode (args_2in "iter1" false) "best")
              = Ok (CoordList (coords_2in "best"), None))
    by (vm_compute; reflexivity).
  split; [exact E|].
  exact (best_mode_returns_wafermap_of_best (args_2in "iter1" false) _ _ E).
Defined.

End MoreChecks.


Section ExactMoreChecks.

Import Inputs MoreInputs.
Local Open Scope R_scope.











End ExactMoreChecks.
